(** * Family Talks: role permissions, member directory, admin log, messages

    A shallow embedding of the TypeScript sources

    - [src/utils/RolePermissions.ts]
    - [src/services/AuthService.ts]
    - [src/services/StorageService.ts]
    - [src/screens/ChatScreen.tsx]
    - [src/types/Message.ts]

    Asynchronous service methods become computations in a state-and-exception
    monad [Async] over a [World] that holds the AsyncStorage contents and the
    two sources of non-determinism the code reads, the clock ([Date.now],
    [new Date()]) and [Math.random].  JavaScript strings are [string]; the
    library functions [String.prototype.toLowerCase] and
    [String.prototype.trim] are operations of the class [JSString]. *)

From stdpp Require Import base option list strings gmap pretty.
From Stdlib Require Import ZArith Lia Ascii.

Open Scope string_scope.
Open Scope list_scope.

(** ** JavaScript primitives *)

(** [String.prototype.toLowerCase] and [String.prototype.trim].  The
    development is generic in them; [ascii_JSString] below gives the ASCII
    behaviour for evaluating the model on concrete inputs. *)
Class JSString := {
  toLowerCase : string → string;
  trim : string → string;
}.

(** A [Date] is its time value, the milliseconds since the epoch.  The
    [JSON.stringify]/[new Date(iso)] round trip of a valid date is the
    identity on it. *)
Definition Date := N.

(** Truthiness of a value that is a string, [null] or [undefined]. *)
Definition truthy (v : option string) : bool :=
  match v with
  | Some s => negb (bool_decide (s = ""))
  | None => false
  end.

(** [Array.prototype.slice(start)]: a negative [start] counts from the end. *)
Definition slice {A} (start : Z) (l : list A) : list A :=
  let len := Z.of_nat (length l) in
  let k := if (start <? 0)%Z then Z.max (len + start) 0 else Z.min start len in
  drop (Z.to_nat k) l.

(** ** Types ([src/types/Message.ts]) *)

(** [FamilyRole] is a union of string literals.  At run time the value of a
    [role] is a string, or [undefined] ([None]): [Partial<FamilyMember>] lets
    the [role] key of an update hold [undefined], and the spread of
    [editFamilyMember] copies it into the member, which [JSON.stringify] then
    stores without the key.  The code has [default] branches for the values
    outside the union. *)
Definition FamilyRole := option string.

(** The conversion of a template literal, [`${role}`]. *)
Definition String_ (role : FamilyRole) : string := default "undefined" role.

Record RolePermissions := {
  canAddMembers : bool;
  canRemoveMembers : bool;
  canEditMembers : bool;
  canManageSettings : bool;
  canModerateContent : bool;
  canViewAnalytics : bool;
  canManageBackup : bool;
  canInviteGuests : bool;
}.

(** [keyof RolePermissions] *)
Inductive PermissionKey :=
  | KcanAddMembers | KcanRemoveMembers | KcanEditMembers | KcanManageSettings
  | KcanModerateContent | KcanViewAnalytics | KcanManageBackup | KcanInviteGuests.

(** [permissions[permission]] *)
Definition permission_at (p : RolePermissions) (k : PermissionKey) : bool :=
  match k with
  | KcanAddMembers => canAddMembers p
  | KcanRemoveMembers => canRemoveMembers p
  | KcanEditMembers => canEditMembers p
  | KcanManageSettings => canManageSettings p
  | KcanModerateContent => canModerateContent p
  | KcanViewAnalytics => canViewAnalytics p
  | KcanManageBackup => canManageBackup p
  | KcanInviteGuests => canInviteGuests p
  end.

Record FamilyMember := {
  id : string;
  name : string;
  avatar : option string;
  isOnline : bool;
  lastSeen : Date;
  deviceId : string;
  role : FamilyRole;
  email : option string;
  phone : option string;
  joinedAt : Date;
  isActive : bool;
  permissions : RolePermissions;
}.

Inductive AdminOperation :=
  | add_member | remove_member | edit_member | change_role | deactivate_member.

Record AdminAction := {
  action_id : string;
  adminId : string;
  targetMemberId : option string;
  operation : AdminOperation;
  details : string;
  action_timestamp : Date;
}.

Inductive MessageType := text | image | voice | file | location.

Inductive MessageStatus := sending | sent | delivered | read | failed.

(** A message object as the code builds and stores it.  The interface
    declares [status] and [isEncrypted]; objects built by the chat screen
    carry [chatId] instead, so the three fields are optional here. *)
Record Message := {
  msg_id : string;
  senderId : string;
  receiverId : string;
  content : string;
  type : MessageType;
  timestamp : Date;
  status : option MessageStatus;
  isEncrypted : option bool;
  chatId : option string;
}.

Record FamilySettings := {
  familyName : string;
  allowGuestInvites : bool;
  messageRetentionDays : N;
  requireApprovalForJoining : bool;
  maxMembers : N;
  autoArchiveOldChats : bool;
  emergencyContacts : list string;
}.

#[global] Instance RolePermissions_eq_dec : EqDecision RolePermissions.
Proof. solve_decision. Defined.
#[global] Instance FamilyMember_eq_dec : EqDecision FamilyMember.
Proof. solve_decision. Defined.
#[global] Instance AdminOperation_eq_dec : EqDecision AdminOperation.
Proof. solve_decision. Defined.
#[global] Instance AdminAction_eq_dec : EqDecision AdminAction.
Proof. solve_decision. Defined.
#[global] Instance MessageType_eq_dec : EqDecision MessageType.
Proof. solve_decision. Defined.
#[global] Instance MessageStatus_eq_dec : EqDecision MessageStatus.
Proof. solve_decision. Defined.
#[global] Instance Message_eq_dec : EqDecision Message.
Proof. solve_decision. Defined.

(** ** [src/utils/RolePermissions.ts] *)

Definition getRolePermissions (role : FamilyRole) : RolePermissions :=
  if decide (role = Some "admin") then
    {| canAddMembers := true; canRemoveMembers := true; canEditMembers := true;
       canManageSettings := true; canModerateContent := true;
       canViewAnalytics := true; canManageBackup := true;
       canInviteGuests := true |}
  else if decide (role = Some "parent") then
    {| canAddMembers := true; canRemoveMembers := false; canEditMembers := true;
       canManageSettings := false; canModerateContent := true;
       canViewAnalytics := true; canManageBackup := false;
       canInviteGuests := true |}
  else if decide (role = Some "grandparent") then
    {| canAddMembers := false; canRemoveMembers := false;
       canEditMembers := false; canManageSettings := false;
       canModerateContent := false; canViewAnalytics := true;
       canManageBackup := false; canInviteGuests := false |}
  else if decide (role = Some "child") then
    {| canAddMembers := false; canRemoveMembers := false;
       canEditMembers := false; canManageSettings := false;
       canModerateContent := false; canViewAnalytics := false;
       canManageBackup := false; canInviteGuests := false |}
  else (* case 'other': default: *)
    {| canAddMembers := false; canRemoveMembers := false;
       canEditMembers := false; canManageSettings := false;
       canModerateContent := false; canViewAnalytics := false;
       canManageBackup := false; canInviteGuests := false |}.

Definition hasPermission (userRole : FamilyRole) (permission : PermissionKey) : bool :=
  let permissions := getRolePermissions userRole in
  permission_at permissions permission.

Definition isAdmin (userRole : FamilyRole) : bool :=
  bool_decide (userRole = Some "admin").

Definition canManageMembers (userRole : FamilyRole) : bool :=
  hasPermission userRole KcanAddMembers
  || hasPermission userRole KcanRemoveMembers
  || hasPermission userRole KcanEditMembers.

Definition getAvailableRoles : list FamilyRole :=
  [Some "admin"; Some "parent"; Some "grandparent"; Some "child"; Some "other"].

Definition canChangeRole (currentRole newRole adminRole : FamilyRole) : bool :=
  if negb (bool_decide (adminRole = Some "admin")) then false
  else if bool_decide (currentRole = Some "admin")
          && negb (bool_decide (newRole = Some "admin"))
  then false
  else if bool_decide (newRole = Some "admin") then false
  else true.

(** ** The canonical table of the specification, section 4.1 *)

(** The five members of the role enumeration, as the specification names
    them. *)
Inductive Role := administrator | parent | grandparent | child | other.

(** The string literal the code uses for a member of the enumeration. *)
Definition role_literal (r : Role) : FamilyRole :=
  match r with
  | administrator => Some "admin"
  | parent => Some "parent"
  | grandparent => Some "grandparent"
  | child => Some "child"
  | other => Some "other"
  end.

(** A row of the table: add, remove, edit, settings, moderate, analytics,
    backup, guests. *)
Definition row (add remove edit settings moderate analytics backup guests : bool)
  : RolePermissions :=
  {| canAddMembers := add; canRemoveMembers := remove; canEditMembers := edit;
     canManageSettings := settings; canModerateContent := moderate;
     canViewAnalytics := analytics; canManageBackup := backup;
     canInviteGuests := guests |}.

Definition canonical_table (r : Role) : RolePermissions :=
  match r with
  | administrator => row true  true  true  true  true  true  true  true
  | parent        => row true  false true  false true  true  false true
  | grandparent   => row false false false false false true  false false
  | child         => row false false false false false false false false
  | other         => row false false false false false false false false
  end.

Definition no_capabilities : RolePermissions :=
  row false false false false false false false false.

(** ** The world: AsyncStorage, the clock and the random source *)

(** The contents of AsyncStorage, one field per storage key, [None] when the
    key is absent ([getItem] gives [null]).  Values are kept parsed: on the
    values stored here [JSON.parse] inverts [JSON.stringify]. *)
Record AsyncStorage := {
  CURRENT_USER : option FamilyMember;
  FAMILY_MEMBERS : option (list FamilyMember);
  FAMILY_CODE : option string;
  ADMIN_ACTIONS : option (list AdminAction);
  FAMILY_SETTINGS : option FamilySettings;
  MESSAGES : option (list Message);
}.

Definition empty_storage : AsyncStorage :=
  {| CURRENT_USER := None; FAMILY_MEMBERS := None; FAMILY_CODE := None;
     ADMIN_ACTIONS := None; FAMILY_SETTINGS := None; MESSAGES := None |}.

Definition set_CURRENT_USER (v : FamilyMember) (s : AsyncStorage) : AsyncStorage :=
  {| CURRENT_USER := Some v; FAMILY_MEMBERS := FAMILY_MEMBERS s;
     FAMILY_CODE := FAMILY_CODE s; ADMIN_ACTIONS := ADMIN_ACTIONS s;
     FAMILY_SETTINGS := FAMILY_SETTINGS s; MESSAGES := MESSAGES s |}.

Definition set_FAMILY_MEMBERS (v : list FamilyMember) (s : AsyncStorage) : AsyncStorage :=
  {| CURRENT_USER := CURRENT_USER s; FAMILY_MEMBERS := Some v;
     FAMILY_CODE := FAMILY_CODE s; ADMIN_ACTIONS := ADMIN_ACTIONS s;
     FAMILY_SETTINGS := FAMILY_SETTINGS s; MESSAGES := MESSAGES s |}.

Definition set_FAMILY_CODE (v : string) (s : AsyncStorage) : AsyncStorage :=
  {| CURRENT_USER := CURRENT_USER s; FAMILY_MEMBERS := FAMILY_MEMBERS s;
     FAMILY_CODE := Some v; ADMIN_ACTIONS := ADMIN_ACTIONS s;
     FAMILY_SETTINGS := FAMILY_SETTINGS s; MESSAGES := MESSAGES s |}.

Definition set_ADMIN_ACTIONS (v : list AdminAction) (s : AsyncStorage) : AsyncStorage :=
  {| CURRENT_USER := CURRENT_USER s; FAMILY_MEMBERS := FAMILY_MEMBERS s;
     FAMILY_CODE := FAMILY_CODE s; ADMIN_ACTIONS := Some v;
     FAMILY_SETTINGS := FAMILY_SETTINGS s; MESSAGES := MESSAGES s |}.

Definition set_FAMILY_SETTINGS (v : FamilySettings) (s : AsyncStorage) : AsyncStorage :=
  {| CURRENT_USER := CURRENT_USER s; FAMILY_MEMBERS := FAMILY_MEMBERS s;
     FAMILY_CODE := FAMILY_CODE s; ADMIN_ACTIONS := ADMIN_ACTIONS s;
     FAMILY_SETTINGS := Some v; MESSAGES := MESSAGES s |}.

Definition set_MESSAGES (v : list Message) (s : AsyncStorage) : AsyncStorage :=
  {| CURRENT_USER := CURRENT_USER s; FAMILY_MEMBERS := FAMILY_MEMBERS s;
     FAMILY_CODE := FAMILY_CODE s; ADMIN_ACTIONS := ADMIN_ACTIONS s;
     FAMILY_SETTINGS := FAMILY_SETTINGS s; MESSAGES := Some v |}.

(** [clock n] is the time value the [n]-th read of the environment gives
    when it is a read of the clock, [random n] the nine base-36 digits
    [Math.random().toString(36).substr(2, 9)] when it is a draw; [reads]
    counts the reads made so far. *)
Record World := {
  storage : AsyncStorage;
  clock : nat → Date;
  random : nat → string;
  reads : nat;
}.

Definition with_storage (s : AsyncStorage) (w : World) : World :=
  {| storage := s; clock := clock w; random := random w; reads := reads w |}.

Definition tick (w : World) : World :=
  {| storage := storage w; clock := clock w; random := random w;
     reads := S (reads w) |}.

(** ** Promises: state and exceptions *)

(** A settled promise: fulfilled with a value, or rejected with an [Error]
    of the given message. *)
Inductive Outcome (A : Type) :=
  | Return (a : A)
  | Throw (message : string).
Arguments Return {A} a.
Arguments Throw {A} message.

Definition Async (A : Type) : Type := World → Outcome A * World.

#[global] Instance Async_ret : MRet Async := λ A a w, (Return a, w).

#[global] Instance Async_bind : MBind Async := λ A B f m w,
  match m w with
  | (Return a, w') => f a w'
  | (Throw e, w') => (Throw e, w')
  end.

Definition throw {A} (message : string) : Async A := λ w, (Throw message, w).

(** [try { body } catch (error) { handler }] *)
Definition try_catch {A} (body : Async A) (handler : string → Async A) : Async A :=
  λ w, match body w with
       | (Return a, w') => (Return a, w')
       | (Throw e, w') => handler e w'
       end.

(** [AsyncStorage.getItem(key)] and [AsyncStorage.setItem(key, value)] *)
Definition getItem {A} (key : AsyncStorage → option A) : Async (option A) :=
  λ w, (Return (key (storage w)), w).

Definition setItem {A} (set_key : A → AsyncStorage → AsyncStorage) (value : A)
  : Async unit :=
  λ w, (Return (), with_storage (set_key value (storage w)) w).

(** [Date.now()] and [new Date()] *)
Definition Date_now : Async Date :=
  λ w, (Return (clock w (reads w)), tick w).

(** [Math.random().toString(36).substr(2, 9)] *)
Definition Math_random_base36 : Async string :=
  λ w, (Return (random w (reads w)), tick w).

(** The final storage and the result of a computation. *)
Definition result {A} (r : Outcome A * World) : Outcome A := fst r.
Definition final {A} (r : Outcome A * World) : AsyncStorage := storage (snd r).

(** ** [src/services/AuthService.ts] *)

(** [Partial<FamilyMember>]: every key is optional, and [None] is an absent
    key.  A key that is present may hold [undefined]: for [role], whose type
    [FamilyRole] has it here, and for [avatar], [email] and [phone], that is
    [Some None].  [role] is the only key whose value [editFamilyMember]
    tests.  For the other keys the record has the updates in which a present
    key holds a value. *)
Record PartialFamilyMember := {
  u_id : option string;
  u_name : option string;
  u_avatar : option (option string);
  u_isOnline : option bool;
  u_lastSeen : option Date;
  u_deviceId : option string;
  u_role : option FamilyRole;
  u_email : option (option string);
  u_phone : option (option string);
  u_joinedAt : option Date;
  u_isActive : option bool;
  u_permissions : option RolePermissions;
}.

(** [updates.role]: [undefined] also when the key is absent. *)
Definition updates_role (updates : PartialFamilyMember) : FamilyRole :=
  default None (u_role updates).

(** The object [{}]. *)
Definition no_updates : PartialFamilyMember :=
  {| u_id := None; u_name := None; u_avatar := None; u_isOnline := None;
     u_lastSeen := None; u_deviceId := None; u_role := None; u_email := None;
     u_phone := None; u_joinedAt := None; u_isActive := None;
     u_permissions := None |}.

(** The object spread [{ ...member, ...updates }]: every key that is present
    in [updates] replaces the one of [member], also when it holds
    [undefined]. *)
Definition spread (member : FamilyMember) (updates : PartialFamilyMember) : FamilyMember :=
  {| id := default (id member) (u_id updates);
     name := default (name member) (u_name updates);
     avatar := default (avatar member) (u_avatar updates);
     isOnline := default (isOnline member) (u_isOnline updates);
     lastSeen := default (lastSeen member) (u_lastSeen updates);
     deviceId := default (deviceId member) (u_deviceId updates);
     role := default (role member) (u_role updates);
     email := default (email member) (u_email updates);
     phone := default (phone member) (u_phone updates);
     joinedAt := default (joinedAt member) (u_joinedAt updates);
     isActive := default (isActive member) (u_isActive updates);
     permissions := default (permissions member) (u_permissions updates) |}.

Definition with_permissions (p : RolePermissions) (member : FamilyMember) : FamilyMember :=
  {| id := id member; name := name member; avatar := avatar member;
     isOnline := isOnline member; lastSeen := lastSeen member;
     deviceId := deviceId member; role := role member; email := email member;
     phone := phone member; joinedAt := joinedAt member;
     isActive := isActive member; permissions := p |}.

Definition with_role (r : FamilyRole) (member : FamilyMember) : FamilyMember :=
  {| id := id member; name := name member; avatar := avatar member;
     isOnline := isOnline member; lastSeen := lastSeen member;
     deviceId := deviceId member; role := r; email := email member;
     phone := phone member; joinedAt := joinedAt member;
     isActive := isActive member; permissions := permissions member |}.

(** The two assignments [user.lastSeen = ...; user.isOnline = ...]. *)
Definition seen (at_ : Date) (online : bool) (member : FamilyMember) : FamilyMember :=
  {| id := id member; name := name member; avatar := avatar member;
     isOnline := online; lastSeen := at_;
     deviceId := deviceId member; role := role member; email := email member;
     phone := phone member; joinedAt := joinedAt member;
     isActive := isActive member; permissions := permissions member |}.

Definition generateUserId : Async string :=
  now ← Date_now;
  r ← Math_random_base36;
  mret ("user_" +:+ pretty now +:+ "_" +:+ r).

Definition generateActionId : Async string :=
  now ← Date_now;
  r ← Math_random_base36;
  mret ("action_" +:+ pretty now +:+ "_" +:+ r).

Definition getDeviceId : Async string :=
  now ← Date_now;
  r ← Math_random_base36;
  mret ("device_" +:+ pretty now +:+ "_" +:+ r).

(** The stored members have both time stamps, so the revival of the dates
    in the [map] is the identity. *)
Definition getFamilyMembers : Async (list FamilyMember) :=
  try_catch
    (membersData ← getItem FAMILY_MEMBERS;
     match membersData with
     | Some members => mret members
     | None => mret []
     end)
    (λ _, mret []).

Definition saveFamilyMembers (members : list FamilyMember) : Async unit :=
  try_catch
    (setItem set_FAMILY_MEMBERS members)
    (λ _, throw "Failed to save family members").

Definition setCurrentUser (user : FamilyMember) : Async unit :=
  try_catch
    (setItem set_CURRENT_USER user)
    (λ _, throw "Failed to save user data").

Definition getCurrentUser : Async (option FamilyMember) :=
  try_catch
    (userData ← getItem CURRENT_USER;
     match userData with
     | Some user =>
         now ← Date_now;
         mret (Some (seen now (isOnline user) user))
     | None => mret None
     end)
    (λ _, mret None).

Definition saveFamilySettings (settings : FamilySettings) : Async unit :=
  try_catch
    (setItem set_FAMILY_SETTINGS settings)
    (λ _, throw "Failed to save family settings").

Definition logAdminAction (adminId : string) (operation : AdminOperation)
    (targetMemberId : option string) (details : option string) : Async unit :=
  try_catch
    (actionsData ← getItem ADMIN_ACTIONS;
     let actions := default [] actionsData in
     new_id ← generateActionId;
     now ← Date_now;
     let newAction :=
       {| action_id := new_id;
          adminId := adminId;
          targetMemberId := targetMemberId;
          operation := operation;
          details := if truthy details then default "" details else "";
          action_timestamp := now |} in
     let actions := actions ++ [newAction] in
     let actions :=
       if decide (100 < length actions) then slice (-100) actions else actions in
     setItem set_ADMIN_ACTIONS actions)
    (λ _, mret ()).

Definition getAdminActions : Async (list AdminAction) :=
  try_catch
    (actionsData ← getItem ADMIN_ACTIONS;
     mret (default [] actionsData))
    (λ _, mret []).

Section AuthService.
Context `{JSString}.

Definition authenticateFamilyMember (familyCode memberName : string)
  : Async (option FamilyMember) :=
  try_catch
    (storedFamilyCode ← getItem FAMILY_CODE;
     storedMembers ← getItem FAMILY_MEMBERS;
     if decide (storedFamilyCode ≠ Some familyCode) then mret None
     else
       let familyMembers := default [] storedMembers in
       match list_find
               (λ member, toLowerCase (name member) = toLowerCase memberName)
               familyMembers with
       | Some (i, existingUser) =>
           now ← Date_now;
           (* [existingUser] is the element of the array: the assignments
              update the array that is saved *)
           let existingUser := seen now true existingUser in
           let familyMembers := <[i := existingUser]> familyMembers in
           saveFamilyMembers familyMembers;;
           setCurrentUser existingUser;;
           mret (Some existingUser)
       | None =>
           new_id ← generateUserId;
           now ← Date_now;
           device ← getDeviceId;
           joined ← Date_now;
           let newMember :=
             {| id := new_id;
                name := memberName;
                avatar := None;
                isOnline := true;
                lastSeen := now;
                deviceId := device;
                role := Some "other";
                email := None;
                phone := None;
                joinedAt := joined;
                isActive := true;
                permissions := getRolePermissions (Some "other") |} in
           let familyMembers := familyMembers ++ [newMember] in
           saveFamilyMembers familyMembers;;
           setCurrentUser newMember;;
           mret (Some newMember)
       end)
    (λ _, throw "Failed to authenticate family member").

Definition createFamily (familyCode memberName : string)
  : Async (option FamilyMember) :=
  try_catch
    (existingFamilyCode ← getItem FAMILY_CODE;
     if truthy existingFamilyCode then throw "Family already exists"
     else
       new_id ← generateUserId;
       now ← Date_now;
       device ← getDeviceId;
       joined ← Date_now;
       let adminMember :=
         {| id := new_id;
            name := memberName;
            avatar := None;
            isOnline := true;
            lastSeen := now;
            deviceId := device;
            role := Some "admin";
            email := None;
            phone := None;
            joinedAt := joined;
            isActive := true;
            permissions := getRolePermissions (Some "admin") |} in
       setItem set_FAMILY_CODE familyCode;;
       saveFamilyMembers [adminMember];;
       setCurrentUser adminMember;;
       let defaultSettings :=
         {| familyName := memberName +:+ "'s Family";
            allowGuestInvites := false;
            messageRetentionDays := 365;
            requireApprovalForJoining := false;
            maxMembers := 20;
            autoArchiveOldChats := true;
            emergencyContacts := [] |} in
       saveFamilySettings defaultSettings;;
       mret (Some adminMember))
    (λ _, throw "Failed to create family").

(** The parameter [role] has the default ['other'], used when the argument
    is omitted or [undefined] ([None]). *)
Definition addFamilyMember (adminUser : FamilyMember) (memberName : string)
    (role_arg : FamilyRole) (email_arg phone_arg : option string)
  : Async FamilyMember :=
  let role_ := default "other" role_arg in
  try_catch
    (if negb (hasPermission (role adminUser) KcanAddMembers)
     then throw "Insufficient permissions to add family members"
     else
       familyMembers ← getFamilyMembers;
       match list_find
               (λ member, toLowerCase (name member) = toLowerCase memberName)
               familyMembers with
       | Some _ => throw "Family member with this name already exists"
       | None =>
           new_id ← generateUserId;
           now ← Date_now;
           joined ← Date_now;
           let newMember :=
             {| id := new_id;
                name := memberName;
                avatar := None;
                isOnline := false;
                lastSeen := now;
                deviceId := "";
                role := Some role_;
                email := email_arg;
                phone := phone_arg;
                joinedAt := joined;
                isActive := true;
                permissions := getRolePermissions (Some role_) |} in
           let familyMembers := familyMembers ++ [newMember] in
           saveFamilyMembers familyMembers;;
           logAdminAction (id adminUser) add_member (Some (id newMember))
             (Some ("Added new family member: " +:+ memberName
                    +:+ " with role: " +:+ role_));;
           mret newMember
       end)
    (λ error, throw error).

End AuthService.

Definition editFamilyMember (adminUser : FamilyMember) (memberId : string)
    (updates : PartialFamilyMember) : Async FamilyMember :=
  try_catch
    (if negb (hasPermission (role adminUser) KcanEditMembers)
     then throw "Insufficient permissions to edit family members"
     else
       familyMembers ← getFamilyMembers;
       match list_find (λ member, id member = memberId) familyMembers with
       | None => throw "Family member not found"
       | Some (memberIndex, member) =>
           if truthy (updates_role updates)
              && bool_decide (role member = Some "admin")
              && bool_decide (memberId ≠ id adminUser)
           then throw "Cannot change admin role"
           else
             let updatedMember :=
               with_permissions
                 (if truthy (updates_role updates)
                  then getRolePermissions (updates_role updates)
                  else permissions member)
                 (spread member updates) in
             let familyMembers := <[memberIndex := updatedMember]> familyMembers in
             saveFamilyMembers familyMembers;;
             logAdminAction (id adminUser) edit_member (Some memberId)
               (Some ("Edited family member: " +:+ name member));;
             mret updatedMember
       end)
    (λ error, throw error).

Definition removeFamilyMember (adminUser : FamilyMember) (memberId : string)
  : Async unit :=
  try_catch
    (if negb (hasPermission (role adminUser) KcanRemoveMembers)
     then throw "Insufficient permissions to remove family members"
     else
       familyMembers ← getFamilyMembers;
       match list_find (λ m, id m = memberId) familyMembers with
       | None => throw "Family member not found"
       | Some (_, member) =>
           if bool_decide (role member = Some "admin")
           then throw "Cannot remove admin member"
           else if bool_decide (memberId = id adminUser)
           then throw "Cannot remove yourself"
           else
             let updatedMembers := filter (λ m, id m ≠ memberId) familyMembers in
             saveFamilyMembers updatedMembers;;
             logAdminAction (id adminUser) remove_member (Some memberId)
               (Some ("Removed family member: " +:+ name member))
       end)
    (λ error, throw error).

Definition changeMemberRole (adminUser : FamilyMember) (memberId : string)
    (newRole : FamilyRole) : Async FamilyMember :=
  try_catch
    (if negb (hasPermission (role adminUser) KcanEditMembers)
     then throw "Insufficient permissions to change member roles"
     else
       familyMembers ← getFamilyMembers;
       match list_find (λ member, id member = memberId) familyMembers with
       | None => throw "Family member not found"
       | Some (memberIndex, member) =>
           if bool_decide (role member = Some "admin")
           then throw "Cannot change admin role"
           else
             let updatedMember :=
               with_permissions (getRolePermissions newRole)
                 (with_role newRole member) in
             let familyMembers := <[memberIndex := updatedMember]> familyMembers in
             saveFamilyMembers familyMembers;;
             logAdminAction (id adminUser) change_role (Some memberId)
               (Some ("Changed role of " +:+ name member +:+ " from "
                      +:+ String_ (role member) +:+ " to "
                      +:+ String_ newRole));;
             mret updatedMember
       end)
    (λ error, throw error).

(** ** [src/services/StorageService.ts] *)

Definition getMessages : Async (list Message) :=
  try_catch
    (messagesData ← getItem MESSAGES;
     match messagesData with
     | Some messages => mret messages
     | None => mret []
     end)
    (λ _, mret []).

Definition saveMessages (messages : list Message) : Async unit :=
  try_catch
    (setItem set_MESSAGES messages)
    (λ _, throw "Failed to save messages").

Definition addMessage (message : Message) : Async unit :=
  try_catch
    (messages ← getMessages;
     let messages := messages ++ [message] in
     saveMessages messages)
    (λ _, throw "Failed to add message").

(** ** [src/screens/ChatScreen.tsx] *)

(** The navigation parameters.  The screen is opened on a member, so
    [memberId] is a string; [chatId] may be missing. *)
Record RouteParams := {
  memberId : string;
  memberName : string;
  route_chatId : option string;
}.

(** The component state ([useState]). *)
Record ChatScreen := {
  messages : list Message;
  newMessage : string;
  currentUser : option FamilyMember;
  isLoading : bool;
}.

(** The predicate of the filter that loads the messages with a member;
    [user?.id] is [undefined] when there is no current user. *)
Definition with_member (memberId : string) (user : option FamilyMember)
    (msg : Message) : bool :=
  bool_decide (senderId msg = memberId)
    && bool_decide (Some (receiverId msg) = id <$> user)
  || bool_decide (Some (senderId msg) = id <$> user)
    && bool_decide (receiverId msg = memberId).

Definition filteredMessages (memberId : string) (user : option FamilyMember)
    (allMessages : list Message) : list Message :=
  filter (λ msg, with_member memberId user msg = true) allMessages.

Definition loadChatData (route : RouteParams) (screen : ChatScreen)
  : Async ChatScreen :=
  λ w,
    let '(r, w') :=
      try_catch
        (user ← getCurrentUser;
         if truthy (route_chatId route) then
           chatMessages ← getMessages;
           let filtered :=
             filter (λ msg, chatId msg = route_chatId route) chatMessages in
           mret {| messages := filtered; newMessage := newMessage screen;
                   currentUser := user; isLoading := true |}
         else if truthy (Some (memberId route)) then
           allMessages ← getMessages;
           let filtered := filteredMessages (memberId route) user allMessages in
           mret {| messages := filtered; newMessage := newMessage screen;
                   currentUser := user; isLoading := true |}
         else
           mret {| messages := messages screen; newMessage := newMessage screen;
                   currentUser := user; isLoading := true |})
        (λ _, mret {| messages := messages screen;
                      newMessage := newMessage screen;
                      currentUser := currentUser screen; isLoading := true |})
        w in
    (* finally *)
    match r with
    | Return s =>
        (Return {| messages := messages s; newMessage := newMessage s;
                   currentUser := currentUser s; isLoading := false |}, w')
    | Throw e => (Throw e, w')
    end.

Section ChatScreen.
Context `{JSString}.

(** The message object of [sendMessage]. *)
Definition send_message_object (route : RouteParams) (sender : FamilyMember)
    (newMessage : string) : Async Message :=
  now ← Date_now;
  r ← Math_random_base36;
  stamp ← Date_now;
  mret {| msg_id := "msg_" +:+ pretty now +:+ "_" +:+ r;
          content := trim newMessage;
          senderId := id sender;
          receiverId := memberId route;
          timestamp := stamp;
          type := text;
          status := None;
          isEncrypted := None;
          chatId :=
            Some (if truthy (route_chatId route)
                  then default "" (route_chatId route)
                  else "chat_" +:+ id sender +:+ "_" +:+ memberId route) |}.

Definition sendMessage (route : RouteParams) (screen : ChatScreen)
  : Async ChatScreen :=
  match currentUser screen with
  | Some sender =>
      if bool_decide (trim (newMessage screen) = "") then mret screen
      else
        try_catch
          (message ← send_message_object route sender (newMessage screen);
           addMessage message;;
           mret {| messages := messages screen ++ [message];
                   newMessage := "";
                   currentUser := currentUser screen;
                   isLoading := isLoading screen |})
          (λ _, mret screen)
  | None => mret screen
  end.

End ChatScreen.

(** ** ASCII strings *)

Definition ascii_lower (a : ascii) : ascii :=
  let n := nat_of_ascii a in
  if (65 <=? n)%nat && (n <=? 90)%nat then ascii_of_nat (n + 32) else a.

Fixpoint ascii_toLowerCase (s : string) : string :=
  match s with
  | EmptyString => EmptyString
  | String a s' => String (ascii_lower a) (ascii_toLowerCase s')
  end.

Definition ascii_space (a : ascii) : bool :=
  let n := nat_of_ascii a in
  (n =? 32)%nat || (9 <=? n)%nat && (n <=? 13)%nat.

Fixpoint trimStart (s : string) : string :=
  match s with
  | EmptyString => EmptyString
  | String a s' => if ascii_space a then trimStart s' else s
  end.

Definition ascii_trim (s : string) : string :=
  String.rev (trimStart (String.rev (trimStart s))).

#[global] Instance ascii_JSString : JSString :=
  {| toLowerCase := ascii_toLowerCase; trim := ascii_trim |}.

(** ** Specification-side notions *)

(** The outcome the specification calls InvalidFamilyCode: the promise of
    [authenticateFamilyMember] resolves to [null]. *)
Definition InvalidFamilyCode : Outcome (option FamilyMember) := Return None.

(** The messages of the errors the specification names. *)
Definition MemberNotFound : string := "Family member not found".
Definition CannotRemoveAdmin : string := "Cannot remove admin member".
Definition CannotRemoveSelf : string := "Cannot remove yourself".

(** The [n] most recent entries of a log, oldest first. *)
Definition most_recent {A} (n : nat) (log : list A) : list A :=
  reverse (take n (reverse log)).

(** The stored collections, empty when the key is absent. *)
Definition stored_members (s : AsyncStorage) : list FamilyMember :=
  default [] (FAMILY_MEMBERS s).
Definition stored_actions (s : AsyncStorage) : list AdminAction :=
  default [] (ADMIN_ACTIONS s).
Definition stored_messages (s : AsyncStorage) : list Message :=
  default [] (MESSAGES s).

(** ** Concrete worlds *)

(** A device on which nothing is stored yet. *)
Definition fresh_install : World :=
  {| storage := empty_storage;
     clock := λ n, (1700000000000 + N.of_nat n)%N;
     random := λ n, if Nat.even n then "4fzyo82mv" else "k3x9q07bt";
     reads := 0 |}.

(** The member a computation returned, if it did. *)
Definition returned_member (r : Outcome (option FamilyMember) * World)
  : option FamilyMember :=
  match fst r with
  | Return m => m
  | Throw _ => None
  end.

(** The family FAM123 created by Alice. *)
Definition family_created : Outcome (option FamilyMember) * World :=
  createFamily "FAM123" "Alice" fresh_install.

Definition Alice : FamilyMember :=
  default
    {| id := ""; name := ""; avatar := None; isOnline := false;
       lastSeen := 0%N; deviceId := ""; role := None; email := None;
       phone := None; joinedAt := 0%N;
       isActive := false; permissions := no_capabilities |}
    (returned_member family_created).

(** Alice has added the child Bob. *)
Definition bob_added : Outcome FamilyMember * World :=
  addFamilyMember Alice "Bob" (Some "child") None None (snd family_created).

Definition Bob : FamilyMember :=
  match fst bob_added with
  | Return m => m
  | Throw _ => Alice
  end.

(** Alice as [getCurrentUser] returns her in that family: the stored current
    user with a fresh last-seen time, the object the screens pass as the
    actor. *)
Definition Alice_logged_in : FamilyMember :=
  match fst (getCurrentUser (snd bob_added)) with
  | Return (Some user) => user
  | _ => Alice
  end.

(** A log of [n] recorded actions. *)
Definition log_of (n : nat) : list AdminAction :=
  (λ i, {| action_id := "action_" +:+ pretty i; adminId := id Alice;
           targetMemberId := None; operation := edit_member;
           details := ""; action_timestamp := N.of_nat i |}) <$> seq 0 n.

Definition world_with_log (n : nat) : World :=
  with_storage (set_ADMIN_ACTIONS (log_of n) (storage (snd bob_added)))
    (snd bob_added).

(** The action [logAdminAction] records in the world [w]. *)
Definition logged (w : World) (adminId : string) (operation : AdminOperation)
    (targetMemberId : option string) (details : option string) : AdminAction :=
  {| action_id :=
       "action_" +:+ pretty (clock w (reads w)) +:+ "_" +:+ random w (S (reads w));
     adminId := adminId;
     targetMemberId := targetMemberId;
     operation := operation;
     details := if truthy details then default "" details else "";
     action_timestamp := clock w (S (S (reads w))) |}.

(** The member [createFamily] makes on a device with nothing stored. *)
Definition first_admin (w : World) (memberName : string) : FamilyMember :=
  {| id := "user_" +:+ pretty (clock w (reads w)) +:+ "_" +:+ random w (S (reads w));
     name := memberName;
     avatar := None;
     isOnline := true;
     lastSeen := clock w (2 + reads w);
     deviceId :=
       "device_" +:+ pretty (clock w (3 + reads w)) +:+ "_" +:+ random w (4 + reads w);
     role := Some "admin";
     email := None;
     phone := None;
     joinedAt := clock w (5 + reads w);
     isActive := true;
     permissions := getRolePermissions (Some "admin") |}.

(** The operations that create or update a member. *)
Inductive MemberOperation :=
  | Authenticate (familyCode memberName : string)
  | CreateFamily (familyCode memberName : string)
  | AddMember (adminUser : FamilyMember) (memberName : string)
      (role : FamilyRole) (email phone : option string)
  | EditMember (adminUser : FamilyMember) (memberId : string)
      (updates : PartialFamilyMember)
  | ChangeRole (adminUser : FamilyMember) (memberId : string)
      (newRole : FamilyRole).

Definition perform `{JSString} (op : MemberOperation)
  : Async (option FamilyMember) :=
  match op with
  | Authenticate familyCode memberName =>
      authenticateFamilyMember familyCode memberName
  | CreateFamily familyCode memberName => createFamily familyCode memberName
  | AddMember adminUser memberName role email phone =>
      member ← addFamilyMember adminUser memberName role email phone;
      mret (Some member)
  | EditMember adminUser memberId updates =>
      member ← editFamilyMember adminUser memberId updates;
      mret (Some member)
  | ChangeRole adminUser memberId newRole =>
      member ← changeMemberRole adminUser memberId newRole;
      mret (Some member)
  end.

(** The [role] key of an edit is absent, or holds a truthy value: the edits
    on which [editFamilyMember] computes the permission set anew whenever the
    spread replaces the role.  The other operations are under no
    condition. *)
Definition role_absent_or_truthy (op : MemberOperation) : Prop :=
  match op with
  | EditMember _ _ updates =>
      u_role updates = None ∨ truthy (updates_role updates) = true
  | _ => True
  end.

(** The stored permission set of a member is the one of its role. *)
Definition in_sync (member : FamilyMember) : Prop :=
  permissions member = getRolePermissions (role member).

Definition permissions_in_sync (s : AsyncStorage) : Prop :=
  Forall in_sync (stored_members s).

(** The worlds the application gets into, from a device with nothing
    stored, by the operations of the member directory. *)
Inductive reachable `{JSString} : World → Prop :=
  | reachable_start w :
      storage w = empty_storage → reachable w
  | reachable_perform op w :
      reachable w → reachable (snd (perform op w))
  | reachable_remove adminUser memberId w :
      reachable w → reachable (snd (removeFamilyMember adminUser memberId w)).

(** Alice renames Bob and makes him a parent; the update also carries a
    permission set, which the edit ignores. *)
Definition rename_and_promote : MemberOperation :=
  EditMember Alice (id Bob)
    {| u_id := None; u_name := Some "Bobby"; u_avatar := None;
       u_isOnline := None; u_lastSeen := None; u_deviceId := None;
       u_role := Some (Some "parent"); u_email := None; u_phone := None;
       u_joinedAt := None; u_isActive := None;
       u_permissions := Some no_capabilities |}.

(** The stored members that hold the administrator role. *)
Definition administrators (s : AsyncStorage) : list FamilyMember :=
  filter (λ m, role m = Some "admin") (stored_members s).

(** The unordered pair of the participants of a message. *)
Definition participants (msg : Message) : gset string :=
  {[senderId msg; receiverId msg]}.

(** The chat screen opened by Alice on Bob, with a typed message. *)
Definition chat_with_Bob : RouteParams :=
  {| memberId := id Bob; memberName := "Bob"; route_chatId := None |}.

Definition typed (newMessage : string) : ChatScreen :=
  {| messages := []; newMessage := newMessage; currentUser := Some Alice;
     isLoading := false |}.

(** ** More of [src/utils/RolePermissions.ts] *)

(** The function [canManageSettings]; the name is taken by the field of
    [RolePermissions]. *)
Definition roleCanManageSettings (userRole : FamilyRole) : bool :=
  hasPermission userRole KcanManageSettings.

#[global] Instance PermissionKey_eq_dec : EqDecision PermissionKey.
Proof. solve_decision. Defined.

(** ** More of [src/services/AuthService.ts] *)

Definition unset_CURRENT_USER (s : AsyncStorage) : AsyncStorage :=
  {| CURRENT_USER := None; FAMILY_MEMBERS := FAMILY_MEMBERS s;
     FAMILY_CODE := FAMILY_CODE s; ADMIN_ACTIONS := ADMIN_ACTIONS s;
     FAMILY_SETTINGS := FAMILY_SETTINGS s; MESSAGES := MESSAGES s |}.

(** [AsyncStorage.removeItem(key)] *)
Definition removeItem (unset_key : AsyncStorage → AsyncStorage) : Async unit :=
  λ w, (Return (), with_storage (unset_key (storage w)) w).

Definition clearCurrentUser : Async unit :=
  try_catch (removeItem unset_CURRENT_USER) (λ _, mret ()).

(** The [map] of [updateUserOnlineStatus]: the callback reads the clock for
    each member it updates. *)
Fixpoint mark_online (userId : string) (online : bool)
    (members : list FamilyMember) : Async (list FamilyMember) :=
  match members with
  | [] => mret []
  | member :: rest =>
      member' ← (if decide (id member = userId)
                 then now ← Date_now; mret (seen now online member)
                 else mret member);
      rest' ← mark_online userId online rest;
      mret (member' :: rest')
  end.

Definition updateUserOnlineStatus (userId : string) (online : bool) : Async unit :=
  try_catch
    (members ← getFamilyMembers;
     updatedMembers ← mark_online userId online members;
     saveFamilyMembers updatedMembers;;
     currentUser ← getCurrentUser;
     match currentUser with
     | Some currentUser =>
         if decide (id currentUser = userId)
         then now ← Date_now; setCurrentUser (seen now online currentUser)
         else mret ()
     | None => mret ()
     end)
    (λ _, mret ()).

Definition isAuthenticated : Async bool :=
  try_catch
    (user ← getCurrentUser;
     mret (bool_decide (user ≠ None)))
    (λ _, mret false).

Definition logout : Async unit :=
  try_catch
    (currentUser ← getCurrentUser;
     match currentUser with
     | Some currentUser => updateUserOnlineStatus (id currentUser) false
     | None => mret ()
     end;;
     clearCurrentUser)
    (λ _, mret ()).

(** ** [src/components/RecentActivityCard.tsx] *)

(** The time values are integers, so [Math.floor] of the quotient is the
    floor division. *)
Definition formatTimestamp (date : Date) : Async string :=
  now ← Date_now;
  let diffInMinutes := ((Z.of_N now - Z.of_N date) / (1000 * 60))%Z in
  mret (if (diffInMinutes <? 1)%Z then "Just now"
        else if (diffInMinutes <? 60)%Z then pretty diffInMinutes +:+ "m ago"
        else if (diffInMinutes <? 1440)%Z then
          let hours := (diffInMinutes / 60)%Z in
          pretty hours +:+ "h ago"
        else
          let days := (diffInMinutes / 1440)%Z in
          pretty days +:+ "d ago").

(** ** [src/screens/AdminScreen.tsx] *)

(** The component state ([useState]), and the alerts shown so far, the
    latest last. *)
Record AdminScreen := {
  familyMembers : list FamilyMember;
  admin_currentUser : option FamilyMember;
  adminActions : list AdminAction;
  isRefreshing : bool;
  admin_isLoading : bool;
  addMemberModal : bool;
  editMemberModal : bool;
  selectedMember : option FamilyMember;
  newMemberName : string;
  newMemberRole : FamilyRole;
  newMemberEmail : string;
  newMemberPhone : string;
  editMemberName : string;
  editMemberRole : FamilyRole;
  editMemberEmail : string;
  editMemberPhone : string;
  alerts : list (string * string);
}.

(** [Alert.alert(title, message)] *)
Definition alert (title message : string) (screen : AdminScreen) : AdminScreen :=
  {| familyMembers := familyMembers screen;
     admin_currentUser := admin_currentUser screen;
     adminActions := adminActions screen;
     isRefreshing := isRefreshing screen;
     admin_isLoading := admin_isLoading screen;
     addMemberModal := addMemberModal screen;
     editMemberModal := editMemberModal screen;
     selectedMember := selectedMember screen;
     newMemberName := newMemberName screen;
     newMemberRole := newMemberRole screen;
     newMemberEmail := newMemberEmail screen;
     newMemberPhone := newMemberPhone screen;
     editMemberName := editMemberName screen;
     editMemberRole := editMemberRole screen;
     editMemberEmail := editMemberEmail screen;
     editMemberPhone := editMemberPhone screen;
     alerts := alerts screen ++ [(title, message)] |}.

(** The three [set...] calls of [loadAdminData], and the loading flag as the
    [finally] leaves it. *)
Definition loaded (user : option FamilyMember) (members : list FamilyMember)
    (actions : list AdminAction) (screen : AdminScreen) : AdminScreen :=
  {| familyMembers := members;
     admin_currentUser := user;
     adminActions := actions;
     isRefreshing := isRefreshing screen;
     admin_isLoading := false;
     addMemberModal := addMemberModal screen;
     editMemberModal := editMemberModal screen;
     selectedMember := selectedMember screen;
     newMemberName := newMemberName screen;
     newMemberRole := newMemberRole screen;
     newMemberEmail := newMemberEmail screen;
     newMemberPhone := newMemberPhone screen;
     editMemberName := editMemberName screen;
     editMemberRole := editMemberRole screen;
     editMemberEmail := editMemberEmail screen;
     editMemberPhone := editMemberPhone screen;
     alerts := alerts screen |}.

(** The calls [setEditMemberModal(false); setSelectedMember(null)]. *)
Definition edit_modal_closed (screen : AdminScreen) : AdminScreen :=
  {| familyMembers := familyMembers screen;
     admin_currentUser := admin_currentUser screen;
     adminActions := adminActions screen;
     isRefreshing := isRefreshing screen;
     admin_isLoading := admin_isLoading screen;
     addMemberModal := addMemberModal screen;
     editMemberModal := false;
     selectedMember := None;
     newMemberName := newMemberName screen;
     newMemberRole := newMemberRole screen;
     newMemberEmail := newMemberEmail screen;
     newMemberPhone := newMemberPhone screen;
     editMemberName := editMemberName screen;
     editMemberRole := editMemberRole screen;
     editMemberEmail := editMemberEmail screen;
     editMemberPhone := editMemberPhone screen;
     alerts := alerts screen |}.

(** [openEditModal(member)] *)
Definition openEditModal (member : FamilyMember) (screen : AdminScreen) : AdminScreen :=
  {| familyMembers := familyMembers screen;
     admin_currentUser := admin_currentUser screen;
     adminActions := adminActions screen;
     isRefreshing := isRefreshing screen;
     admin_isLoading := admin_isLoading screen;
     addMemberModal := addMemberModal screen;
     editMemberModal := true;
     selectedMember := Some member;
     newMemberName := newMemberName screen;
     newMemberRole := newMemberRole screen;
     newMemberEmail := newMemberEmail screen;
     newMemberPhone := newMemberPhone screen;
     editMemberName := name member;
     editMemberRole := role member;
     editMemberEmail := if truthy (email member) then default "" (email member) else "";
     editMemberPhone := if truthy (phone member) then default "" (phone member) else "";
     alerts := alerts screen |}.

(** The screen shows the admin panel to this user. *)
Definition hasAdminAccess (screen : AdminScreen) : bool :=
  match admin_currentUser screen with
  | Some currentUser => canManageMembers (role currentUser)
  | None => false
  end.

(** The three reads of [loadAdminData] only read the storage and the clock,
    so the order in which [Promise.all] completes them does not matter. *)
Definition loadAdminData (screen : AdminScreen) : Async AdminScreen :=
  try_catch
    (user ← getCurrentUser;
     members ← getFamilyMembers;
     actions ← getAdminActions;
     mret (loaded user members actions screen))
    (λ _, mret (loaded (admin_currentUser screen) (familyMembers screen)
                  (adminActions screen)
                  (alert "Error" "Failed to load family data" screen))).

Section AdminScreen.
Context `{JSString}.

(** The object [updates] that [handleEditMember] builds from the form. *)
Definition edit_form_updates (selectedMember : FamilyMember)
    (screen : AdminScreen) : PartialFamilyMember :=
  {| u_id := None;
     u_name :=
       if decide (trim (editMemberName screen) ≠ name selectedMember)
       then Some (trim (editMemberName screen)) else None;
     u_avatar := None;
     u_isOnline := None;
     u_lastSeen := None;
     u_deviceId := None;
     u_role :=
       if decide (editMemberRole screen ≠ role selectedMember)
       then Some (editMemberRole screen) else None;
     u_email :=
       if decide (trim (editMemberEmail screen)
                  ≠ (if truthy (email selectedMember)
                     then default "" (email selectedMember) else ""))
       then Some (if truthy (Some (trim (editMemberEmail screen)))
                  then Some (trim (editMemberEmail screen)) else None)
       else None;
     u_phone :=
       if decide (trim (editMemberPhone screen)
                  ≠ (if truthy (phone selectedMember)
                     then default "" (phone selectedMember) else ""))
       then Some (if truthy (Some (trim (editMemberPhone screen)))
                  then Some (trim (editMemberPhone screen)) else None)
       else None;
     u_joinedAt := None;
     u_isActive := None;
     u_permissions := None |}.

(** [Object.keys(updates).length] for that object. *)
Definition update_keys (updates : PartialFamilyMember) : nat :=
  (if u_name updates is Some _ then 1 else 0)
  + (if u_role updates is Some _ then 1 else 0)
  + (if u_email updates is Some _ then 1 else 0)
  + (if u_phone updates is Some _ then 1 else 0).

Definition handleEditMember (screen : AdminScreen) : Async AdminScreen :=
  match selectedMember screen, admin_currentUser screen with
  | Some selected, Some currentUser =>
      try_catch
        (let updates := edit_form_updates selected screen in
         if decide (update_keys updates = 0)
         then mret (alert "Info" "No changes made" screen)
         else
           editFamilyMember currentUser (id selected) updates;;
           screen' ← loadAdminData screen;
           mret (alert "Success" "Member updated successfully!"
                   (edit_modal_closed screen')))
        (λ error, mret (alert "Error" error screen))
  | _, _ => mret screen
  end.

(** The form of the add dialog is reset and the dialog closed. *)
Definition add_modal_closed (screen : AdminScreen) : AdminScreen :=
  {| familyMembers := familyMembers screen;
     admin_currentUser := admin_currentUser screen;
     adminActions := adminActions screen;
     isRefreshing := isRefreshing screen;
     admin_isLoading := admin_isLoading screen;
     addMemberModal := false;
     editMemberModal := editMemberModal screen;
     selectedMember := selectedMember screen;
     newMemberName := "";
     newMemberRole := Some "other";
     newMemberEmail := "";
     newMemberPhone := "";
     editMemberName := editMemberName screen;
     editMemberRole := editMemberRole screen;
     editMemberEmail := editMemberEmail screen;
     editMemberPhone := editMemberPhone screen;
     alerts := alerts screen |}.

(** [field.trim() || undefined] *)
Definition trimmed_or_undefined (field : string) : option string :=
  if truthy (Some (trim field)) then Some (trim field) else None.

Definition handleAddMember (screen : AdminScreen) : Async AdminScreen :=
  if negb (truthy (Some (trim (newMemberName screen))))
  then mret (alert "Error" "Please enter a member name" screen)
  else
    match admin_currentUser screen with
    | None => mret (alert "Error" "User not authenticated" screen)
    | Some currentUser =>
        try_catch
          (newMember ← addFamilyMember currentUser (trim (newMemberName screen))
                         (newMemberRole screen)
                         (trimmed_or_undefined (newMemberEmail screen))
                         (trimmed_or_undefined (newMemberPhone screen));
           screen' ← loadAdminData screen;
           mret (alert "Success"
                   ("Added " +:+ name newMember +:+ " to the family!")
                   (add_modal_closed screen')))
          (λ error, mret (alert "Error" error screen))
    end.

End AdminScreen.

(** ** Notions for the further properties *)

(** The member [addFamilyMember] makes in the world [w]. *)
Definition added_member (w : World) (memberName : string)
    (role_arg : FamilyRole) (email_arg phone_arg : option string)
  : FamilyMember :=
  {| id := "user_" +:+ pretty (clock w (reads w)) +:+ "_" +:+ random w (S (reads w));
     name := memberName;
     avatar := None;
     isOnline := false;
     lastSeen := clock w (2 + reads w);
     deviceId := "";
     role := Some (default "other" role_arg);
     email := email_arg;
     phone := phone_arg;
     joinedAt := clock w (3 + reads w);
     isActive := true;
     permissions := getRolePermissions (Some (default "other" role_arg)) |}.

(** The member [authenticateFamilyMember] makes for a new name. *)
Definition joined_member (w : World) (memberName : string) : FamilyMember :=
  {| id := "user_" +:+ pretty (clock w (reads w)) +:+ "_" +:+ random w (S (reads w));
     name := memberName;
     avatar := None;
     isOnline := true;
     lastSeen := clock w (2 + reads w);
     deviceId :=
       "device_" +:+ pretty (clock w (3 + reads w)) +:+ "_" +:+ random w (4 + reads w);
     role := Some "other";
     email := None;
     phone := None;
     joinedAt := clock w (5 + reads w);
     isActive := true;
     permissions := getRolePermissions (Some "other") |}.

(** No two stored members have the same name up to case. *)
Definition names_unique `{JSString} (s : AsyncStorage) : Prop :=
  NoDup ((λ m, toLowerCase (name m)) <$> stored_members s).

(** The operation does not rename a member. *)
Definition keeps_names (op : MemberOperation) : Prop :=
  match op with
  | EditMember _ _ updates => u_name updates = None
  | _ => True
  end.

(** What [updateUserOnlineStatus] does to one stored member. *)
Definition status_updated (userId : string) (online : bool)
    (before after : FamilyMember) : Prop :=
  if decide (id before = userId)
  then ∃ now, after = seen now online before
  else after = before.

(** Alice has added Carol as a parent. *)
Definition carol_added : Outcome FamilyMember * World :=
  addFamilyMember Alice "Carol" (Some "parent") None None (snd bob_added).

Definition Carol : FamilyMember :=
  match fst carol_added with
  | Return m => m
  | Throw _ => Alice
  end.

(** An update that only carries the [role] key; [role_update None] is
    [{ role: undefined }]. *)
Definition role_update (r : FamilyRole) : PartialFamilyMember :=
  {| u_id := None; u_name := None; u_avatar := None; u_isOnline := None;
     u_lastSeen := None; u_deviceId := None; u_role := Some r;
     u_email := None; u_phone := None; u_joinedAt := None;
     u_isActive := None; u_permissions := None |}.

(** The admin screen of Alice, with the family loaded and no dialog open. *)
Definition admin_panel : AdminScreen :=
  {| familyMembers := [Alice; Bob]; admin_currentUser := Some Alice;
     adminActions := []; isRefreshing := false; admin_isLoading := false;
     addMemberModal := false; editMemberModal := false;
     selectedMember := None; newMemberName := "";
     newMemberRole := Some "other";
     newMemberEmail := ""; newMemberPhone := ""; editMemberName := "";
     editMemberRole := Some "other"; editMemberEmail := "";
     editMemberPhone := ""; alerts := [] |}.

(** Alice has opened the edit dialog on Bob and chosen the role parent. *)
Definition Bob_as_parent : AdminScreen :=
  {| familyMembers := [Alice; Bob]; admin_currentUser := Some Alice;
     adminActions := []; isRefreshing := false; admin_isLoading := false;
     addMemberModal := false; editMemberModal := true;
     selectedMember := Some Bob; newMemberName := "";
     newMemberRole := Some "other";
     newMemberEmail := ""; newMemberPhone := ""; editMemberName := "Bob";
     editMemberRole := Some "parent"; editMemberEmail := "";
     editMemberPhone := ""; alerts := [] |}.

(** ** Proof support *)

Ltac unfold_async :=
  unfold saveFamilyMembers, setCurrentUser, saveFamilySettings, saveMessages,
    generateUserId, generateActionId, getDeviceId in *;
  unfold mbind, mret, Async_bind, Async_ret, try_catch, throw, getItem, setItem,
    Date_now, Math_random_base36, result, final in *.

Lemma getFamilyMembers_run w :
  getFamilyMembers w = (Return (stored_members (storage w)), w).
Proof.
  unfold getFamilyMembers, stored_members. unfold_async.
  by destruct (FAMILY_MEMBERS (storage w)).
Qed.

Lemma getMessages_run w :
  getMessages w = (Return (stored_messages (storage w)), w).
Proof.
  unfold getMessages, stored_messages. unfold_async.
  by destruct (MESSAGES (storage w)).
Qed.

Arguments hasPermission : simpl never.
Arguments getRolePermissions : simpl never.
Arguments logAdminAction : simpl never.
Arguments most_recent : simpl never.
Arguments pretty : simpl never.

Lemma most_recent_drop {A} (n : nat) (log : list A) :
  most_recent n log = drop (length log - n) log.
Proof.
  unfold most_recent. rewrite take_reverse. apply reverse_involutive.
Qed.

Lemma slice_most_recent {A} (n : nat) (log : list A) :
  0 < n → slice (- Z.of_nat n) log = most_recent n log.
Proof.
  intros Hn. rewrite most_recent_drop. unfold slice.
  destruct (Z.ltb_spec (- Z.of_nat n) 0) as [_|Hge]; [|lia].
  f_equal. lia.
Qed.

Lemma most_recent_all {A} (n : nat) (log : list A) :
  (length log ≤ n)%nat → most_recent n log = log.
Proof.
  intros Hle. rewrite most_recent_drop.
  replace (length log - n) with 0 by lia. reflexivity.
Qed.

Lemma length_most_recent {A} (n : nat) (log : list A) :
  (length (most_recent n log) ≤ n)%nat.
Proof. rewrite most_recent_drop, length_drop. lia. Qed.

Lemma logAdminAction_run w adminId operation targetMemberId details :
  logAdminAction adminId operation targetMemberId details w =
    (Return (),
     with_storage
       (set_ADMIN_ACTIONS
          (most_recent 100
             (stored_actions (storage w)
              ++ [logged w adminId operation targetMemberId details]))
          (storage w))
       (tick (tick (tick w)))).
Proof.
  unfold logAdminAction, logged, stored_actions. unfold_async. simpl.
  set (log := default [] (ADMIN_ACTIONS (storage w)) ++ _).
  case_decide as Hlen.
  - change (slice (-100) log) with (slice (- Z.of_nat 100) log).
    by rewrite slice_most_recent by lia.
  - by rewrite most_recent_all by lia.
Qed.

(** ** The role-permission table *)

Lemma getAvailableRoles_enumeration :
  getAvailableRoles =
    role_literal <$> [administrator; parent; grandparent; child; other].
Proof. reflexivity. Qed.

(** C1: for each of the five roles [getRolePermissions] returns the row of
    the canonical table of section 4.1, and for every role value outside the
    enumeration it returns the set with every capability false. *)
Theorem getRolePermissions_table :
  (∀ r : Role, getRolePermissions (role_literal r) = canonical_table r) ∧
  (∀ role : FamilyRole,
     role ∉ getAvailableRoles → getRolePermissions role = no_capabilities).
Proof.
  split.
  - intros []; reflexivity.
  - intros role Hout. unfold getRolePermissions.
    repeat case_decide; try reflexivity; subst; exfalso; apply Hout;
      unfold getAvailableRoles; set_solver.
Qed.

Lemma getRolePermissions_table_witness :
  (Some "guest" ∉ getAvailableRoles)
  ∧ getRolePermissions (Some "guest") = no_capabilities.
Proof.
  assert (Hout : Some "guest" ∉ getAvailableRoles) by compute_done.
  split; [exact Hout|].
  exact (proj2 getRolePermissions_table (Some "guest") Hout).
Defined.

(** ** The admin action log *)

(** C4: [logAdminAction] leaves the last 100 entries of the old log followed
    by the new entry, in order; the log never holds more than 100 entries,
    and appending to a log of 100 drops exactly its oldest entry. *)
Theorem logAdminAction_cap w admin op target details :
  ∃ newAction w',
    logAdminAction admin op target details w = (Return (), w')
    ∧ adminId newAction = admin
    ∧ operation newAction = op
    ∧ targetMemberId newAction = target
    ∧ ADMIN_ACTIONS (storage w') =
        Some (most_recent 100 (stored_actions (storage w) ++ [newAction]))
    ∧ (length (stored_actions (storage w')) ≤ 100)%nat
    ∧ (length (stored_actions (storage w)) = 100 →
       stored_actions (storage w') =
         drop 1 (stored_actions (storage w)) ++ [newAction]).
Proof.
  eexists (logged w admin op target details), _.
  split; [apply logAdminAction_run|].
  repeat split; simpl.
  - apply length_most_recent.
  - intros Hfull. unfold stored_actions at 1. simpl.
    rewrite most_recent_drop, length_app, Hfull. simpl.
    rewrite drop_app_le by lia. reflexivity.
Qed.

Lemma logAdminAction_cap_witness :
  length (stored_actions (storage (world_with_log 100))) = 100
  ∧ ∃ newAction,
      stored_actions
        (final (logAdminAction (id Alice) remove_member None None
                  (world_with_log 100))) =
        drop 1 (log_of 100) ++ [newAction].
Proof.
  split; [reflexivity|].
  destruct (logAdminAction_cap (world_with_log 100) (id Alice) remove_member
              None None) as (newAction & w' & Hrun & _ & _ & _ & _ & _ & Hfull).
  exists newAction. unfold final. rewrite Hrun. simpl.
  apply Hfull. reflexivity.
Defined.

(** ** Authentication and family creation *)

Section Authentication.
Context `{JSString}.

(** C5: when the supplied family code differs from the stored one (or none
    is stored), [authenticateFamilyMember] gives the invalid-code outcome
    and leaves the world as it was: no member is created and no field of a
    member is changed. *)
Theorem authenticate_wrong_code w familyCode memberName :
  FAMILY_CODE (storage w) ≠ Some familyCode →
  authenticateFamilyMember familyCode memberName w = (InvalidFamilyCode, w)
  ∧ FAMILY_MEMBERS (final (authenticateFamilyMember familyCode memberName w))
    = FAMILY_MEMBERS (storage w).
Proof.
  intros Hcode.
  assert (Hrun : authenticateFamilyMember familyCode memberName w
                 = (InvalidFamilyCode, w)).
  { unfold authenticateFamilyMember. unfold_async. simpl.
    rewrite decide_True by done. reflexivity. }
  split; [exact Hrun|]. unfold final. by rewrite Hrun.
Qed.

Lemma createFamily_run w familyCode memberName :
  truthy (FAMILY_CODE (storage w)) = false →
  ∃ w',
    createFamily familyCode memberName w
      = (Return (Some (first_admin w memberName)), w')
    ∧ FAMILY_CODE (storage w') = Some familyCode
    ∧ FAMILY_MEMBERS (storage w') = Some [first_admin w memberName]
    ∧ CURRENT_USER (storage w') = Some (first_admin w memberName)
    ∧ ADMIN_ACTIONS (storage w') = ADMIN_ACTIONS (storage w)
    ∧ MESSAGES (storage w') = MESSAGES (storage w).
Proof.
  intros Hnone. unfold createFamily. unfold_async. simpl. rewrite Hnone.
  eexists. split; [reflexivity|]. simpl. done.
Qed.

(** C6: on empty storage, [createFamily] followed by
    [authenticateFamilyMember] with the same code and name returns a member
    with the identifier of the member [createFamily] created, and the stored
    collection still has exactly one member. *)
Theorem createFamily_then_authenticate w familyCode memberName :
  storage w = empty_storage →
  ∃ created w1 authenticated w2,
    createFamily familyCode memberName w = (Return (Some created), w1)
    ∧ authenticateFamilyMember familyCode memberName w1
      = (Return (Some authenticated), w2)
    ∧ id authenticated = id created
    ∧ FAMILY_MEMBERS (storage w2) = Some [authenticated]
    ∧ length (stored_members (storage w2)) = 1.
Proof.
  intros Hempty.
  destruct (createFamily_run w familyCode memberName)
    as (w1 & Hcreate & Hcode & Hmembers & _).
  { by rewrite Hempty. }
  exists (first_admin w memberName), w1. do 2 eexists.
  split; [exact Hcreate|].
  unfold authenticateFamilyMember. unfold_async. simpl.
  rewrite Hcode, Hmembers. rewrite decide_False by (by intros []).
  simpl. rewrite decide_True by done. simpl.
  split; [reflexivity|]. simpl. done.
Qed.

End Authentication.

Lemma authenticate_wrong_code_witness :
  authenticateFamilyMember "FAM999" "Alice" (snd family_created)
    = (InvalidFamilyCode, snd family_created)
  ∧ FAMILY_MEMBERS
      (final (authenticateFamilyMember "FAM999" "Alice" (snd family_created)))
    = FAMILY_MEMBERS (storage (snd family_created)).
Proof.
  apply (authenticate_wrong_code (snd family_created) "FAM999" "Alice").
  vm_compute. discriminate.
Defined.

Lemma createFamily_then_authenticate_witness :
  ∃ created w1 authenticated w2,
    createFamily "FAM123" "Alice" fresh_install = (Return (Some created), w1)
    ∧ authenticateFamilyMember "FAM123" "Alice" w1
      = (Return (Some authenticated), w2)
    ∧ id authenticated = id created
    ∧ FAMILY_MEMBERS (storage w2) = Some [authenticated]
    ∧ length (stored_members (storage w2)) = 1.
Proof.
  apply (createFamily_then_authenticate fresh_install "FAM123" "Alice").
  reflexivity.
Defined.

(** ** Removing a member *)

Lemma canRemoveMembers_admin (r : FamilyRole) :
  hasPermission r KcanRemoveMembers = true → r = Some "admin".
Proof.
  unfold hasPermission, getRolePermissions.
  repeat case_decide; simpl; congruence.
Qed.

Lemma list_find_id_elem (members : list FamilyMember) memberId i member :
  list_find (λ m, id m = memberId) members = Some (i, member) →
  member ∈ members ∧ id member = memberId.
Proof.
  intros (Hi & Hid & _)%list_find_Some. split; [|done].
  by eapply list_elem_of_lookup_2.
Qed.

(** C2 (as the code has it): removing oneself always fails and changes
    nothing, and the error is decided by the first stored record that has
    the identifier of the actor: not-found when there is none; the error of
    the administrator check when that record is an administrator, since
    that check comes before the self check; the error of the self check
    only when that record has another role.  Of the acting object only the
    role and the identifier are looked at. *)
Theorem removeFamilyMember_self w adminUser :
  hasPermission (role adminUser) KcanRemoveMembers = true →
  (∃ error,
     removeFamilyMember adminUser (id adminUser) w = (Throw error, w)
     ∧ (error = MemberNotFound ∨ error = CannotRemoveAdmin
        ∨ error = CannotRemoveSelf))
  ∧ (list_find (λ m, id m = id adminUser) (stored_members (storage w)) = None →
     removeFamilyMember adminUser (id adminUser) w = (Throw MemberNotFound, w))
  ∧ (∀ i member,
       list_find (λ m, id m = id adminUser) (stored_members (storage w))
         = Some (i, member) →
       (role member = Some "admin" →
        removeFamilyMember adminUser (id adminUser) w
        = (Throw CannotRemoveAdmin, w))
       ∧ (role member ≠ Some "admin" →
          removeFamilyMember adminUser (id adminUser) w
          = (Throw CannotRemoveSelf, w))).
Proof.
  intros Hmay.
  assert (Hnone :
    list_find (λ m, id m = id adminUser) (stored_members (storage w)) = None →
    removeFamilyMember adminUser (id adminUser) w = (Throw MemberNotFound, w)).
  { intros Hfind. unfold removeFamilyMember. unfold_async.
    rewrite Hmay. cbn [negb]. by rewrite getFamilyMembers_run, Hfind. }
  assert (Hsome : ∀ i member,
    list_find (λ m, id m = id adminUser) (stored_members (storage w))
      = Some (i, member) →
    removeFamilyMember adminUser (id adminUser) w
    = (Throw (if bool_decide (role member = Some "admin")
              then CannotRemoveAdmin else CannotRemoveSelf), w)).
  { intros i member Hfind. unfold removeFamilyMember. unfold_async.
    rewrite Hmay. cbn [negb]. rewrite getFamilyMembers_run, Hfind.
    case_bool_decide; [done|]. by rewrite bool_decide_true by done. }
  split; [|split].
  - destruct (list_find _ (stored_members (storage w))) as [[i member]|]
      eqn:Hfind.
    + rewrite (Hsome i member eq_refl).
      case_bool_decide; eexists; (split; [reflexivity|]); auto.
    + rewrite (Hnone eq_refl). eexists. split; [reflexivity|]. auto.
  - exact Hnone.
  - intros i member Hfind. rewrite (Hsome i member Hfind). split; intros Hrole.
    + by rewrite bool_decide_true by done.
    + by rewrite bool_decide_false by done.
Qed.

Lemma removeFamilyMember_self_witness :
  hasPermission (role Alice_logged_in) KcanRemoveMembers = true
  ∧ (Alice_logged_in ∉ stored_members (storage (snd bob_added)))
  ∧ removeFamilyMember Alice_logged_in (id Alice_logged_in) (snd bob_added)
    = (Throw CannotRemoveAdmin, snd bob_added).
Proof.
  split; [reflexivity|]. split; [compute_done|].
  destruct (removeFamilyMember_self (snd bob_added) Alice_logged_in eq_refl)
    as (_ & _ & Hfound).
  apply (Hfound 0 Alice); [by vm_compute|reflexivity].
Defined.

(** C2 as stated fails: Alice, the administrator of the family, is stored
    and holds the remove capability, and removing herself is refused by the
    administrator check, not by the self check. *)
Lemma removeFamilyMember_self_counterexample :
  hasPermission (role Alice) KcanRemoveMembers = true
  ∧ Alice ∈ stored_members (storage (snd bob_added))
  ∧ result (removeFamilyMember Alice (id Alice) (snd bob_added))
    = Throw CannotRemoveAdmin
  ∧ result (removeFamilyMember Alice (id Alice) (snd bob_added))
    ≠ Throw CannotRemoveSelf.
Proof.
  split; [reflexivity|]. split; [compute_done|].
  split; [by vm_compute|]. vm_compute. discriminate.
Qed.

(** ** Editing a member and changing a role *)

(** The member [editFamilyMember] stores for [member] and [updates]. *)
Lemma editFamilyMember_success w adminUser memberId updates updated w' :
  editFamilyMember adminUser memberId updates w = (Return updated, w') →
  ∃ memberIndex member,
    list_find (λ m, id m = memberId) (stored_members (storage w))
      = Some (memberIndex, member)
    ∧ updated =
        with_permissions
          (if truthy (updates_role updates)
           then getRolePermissions (updates_role updates)
           else permissions member)
          (spread member updates)
    ∧ FAMILY_MEMBERS (storage w')
      = Some (<[memberIndex := updated]> (stored_members (storage w)))
    ∧ ADMIN_ACTIONS (storage w')
      = Some (most_recent 100
                (stored_actions (storage w)
                 ++ [logged w (id adminUser) edit_member (Some memberId)
                       (Some ("Edited family member: " +:+ name member))])).
Proof.
  unfold editFamilyMember. unfold_async.
  destruct (negb (hasPermission (role adminUser) KcanEditMembers)); [done|].
  rewrite getFamilyMembers_run.
  destruct (list_find _ (stored_members (storage w))) as [[i member]|]; [|done].
  destruct (truthy (updates_role updates) && _ && _); [done|].
  rewrite logAdminAction_run. simpl.
  intros [= <- <-]. exists i, member. done.
Qed.

Lemma changeMemberRole_success w adminUser memberId newRole updated w' :
  changeMemberRole adminUser memberId newRole w = (Return updated, w') →
  ∃ memberIndex member,
    list_find (λ m, id m = memberId) (stored_members (storage w))
      = Some (memberIndex, member)
    ∧ role member ≠ Some "admin"
    ∧ updated = with_permissions (getRolePermissions newRole) (with_role newRole member)
    ∧ FAMILY_MEMBERS (storage w')
      = Some (<[memberIndex := updated]> (stored_members (storage w))).
Proof.
  unfold changeMemberRole. unfold_async.
  destruct (negb (hasPermission (role adminUser) KcanEditMembers)); [done|].
  rewrite getFamilyMembers_run.
  destruct (list_find _ (stored_members (storage w))) as [[i member]|]; [|done].
  case_bool_decide as Hrole; [done|].
  rewrite logAdminAction_run. simpl.
  intros [= <- <-]. exists i, member. done.
Qed.

(** [changeMemberRole] succeeds for every new role when the actor may edit
    and the target is a stored member that is not an administrator. *)
Lemma changeMemberRole_run w adminUser memberId newRole memberIndex member :
  hasPermission (role adminUser) KcanEditMembers = true →
  list_find (λ m, id m = memberId) (stored_members (storage w))
    = Some (memberIndex, member) →
  role member ≠ Some "admin" →
  ∃ w',
    changeMemberRole adminUser memberId newRole w
      = (Return (with_permissions (getRolePermissions newRole)
                   (with_role newRole member)), w')
    ∧ FAMILY_MEMBERS (storage w')
      = Some (<[memberIndex :=
                  with_permissions (getRolePermissions newRole)
                    (with_role newRole member)]>
                (stored_members (storage w))).
Proof.
  intros Hmay Hfind Hrole.
  unfold changeMemberRole. unfold_async. rewrite Hmay. cbn [negb].
  rewrite getFamilyMembers_run, Hfind.
  rewrite bool_decide_false by done.
  rewrite logAdminAction_run. simpl. eexists. done.
Qed.

(** C10: [changeMemberRole] does not prevent promotion to administrator.
    In the family of Alice (administrator) and Bob (child), Alice changing
    the role of Bob to ['admin'] succeeds and leaves two administrators,
    while [canChangeRole] is false whenever the new role is ['admin']. *)
Theorem changeMemberRole_promotes_to_admin :
  (∃ w adminUser member promoted w',
     role adminUser = Some "admin"
     ∧ member ∈ stored_members (storage w)
     ∧ role member ≠ Some "admin"
     ∧ length (administrators (storage w)) = 1
     ∧ changeMemberRole adminUser (id member) (Some "admin") w = (Return promoted, w')
     ∧ role promoted = Some "admin"
     ∧ length (administrators (storage w')) = 2)
  ∧ (∀ currentRole adminRole : FamilyRole,
       canChangeRole currentRole (Some "admin") adminRole = false).
Proof.
  split.
  - exists (snd bob_added), Alice, Bob.
    destruct (changeMemberRole_run (snd bob_added) Alice (id Bob) (Some "admin") 1 Bob)
      as (w' & Hrun & Hmembers); [reflexivity|by vm_compute|by vm_compute|].
    eexists _, w'. split; [reflexivity|]. split; [compute_done|].
    split; [by vm_compute|]. split; [reflexivity|].
    split; [exact Hrun|]. split; [reflexivity|].
    unfold administrators, stored_members. rewrite Hmembers. reflexivity.
  - intros currentRole adminRole. unfold canChangeRole.
    repeat case_bool_decide; simpl; try done.
Qed.

(** C7 (as the code has it): every successful [editFamilyMember] appends one
    action, tagged [edit_member], to the log, whatever the update is; it
    does not look at whether a field changed. *)
Theorem editFamilyMember_logs w adminUser memberId updates updated w' :
  editFamilyMember adminUser memberId updates w = (Return updated, w') →
  ∃ action,
    stored_actions (storage w')
      = most_recent 100 (stored_actions (storage w) ++ [action])
    ∧ operation action = edit_member
    ∧ adminId action = id adminUser
    ∧ targetMemberId action = Some memberId.
Proof.
  intros (i & member & _ & _ & _ & Hlog)%editFamilyMember_success.
  eexists. split.
  - unfold stored_actions at 1. rewrite Hlog. reflexivity.
  - done.
Qed.

Lemma editFamilyMember_logs_witness :
  editFamilyMember Alice (id Bob) no_updates (snd bob_added)
    = (Return Bob, snd (editFamilyMember Alice (id Bob) no_updates (snd bob_added)))
  ∧ ∃ action,
      stored_actions
        (final (editFamilyMember Alice (id Bob) no_updates (snd bob_added)))
        = most_recent 100 (stored_actions (storage (snd bob_added)) ++ [action])
      ∧ operation action = edit_member
      ∧ adminId action = id Alice
      ∧ targetMemberId action = Some (id Bob).
Proof.
  assert (Hrun : editFamilyMember Alice (id Bob) no_updates (snd bob_added)
                 = (Return Bob,
                    snd (editFamilyMember Alice (id Bob) no_updates (snd bob_added)))).
  { rewrite (surjective_pairing (editFamilyMember _ _ _ _)) at 1.
    f_equal; by vm_compute. }
  split; [exact Hrun|].
  exact (editFamilyMember_logs _ _ _ _ _ _ Hrun).
Defined.

(** C7 as stated fails: an edit of Bob with the empty update succeeds and
    leaves every field of every member as it was, and the log has one more
    action, tagged [edit_member]. *)
Lemma editFamilyMember_unchanged_counterexample :
  result (editFamilyMember Alice (id Bob) no_updates (snd bob_added)) = Return Bob
  ∧ Bob ∈ stored_members (storage (snd bob_added))
  ∧ FAMILY_MEMBERS (final (editFamilyMember Alice (id Bob) no_updates (snd bob_added)))
    = FAMILY_MEMBERS (storage (snd bob_added))
  ∧ length (stored_actions (storage (snd bob_added))) = 1
  ∧ length (stored_actions
              (final (editFamilyMember Alice (id Bob) no_updates (snd bob_added))))
    = 2
  ∧ operation <$> last (stored_actions
              (final (editFamilyMember Alice (id Bob) no_updates (snd bob_added))))
    = Some edit_member.
Proof.
  split; [by vm_compute|]. split; [compute_done|]. split; [by vm_compute|].
  split; [reflexivity|]. split; reflexivity.
Qed.

(** ** The stored permissions follow the role *)

Lemma in_sync_seen now online member :
  in_sync member → in_sync (seen now online member).
Proof. done. Qed.

Lemma in_sync_changed newRole member :
  in_sync (with_permissions (getRolePermissions newRole) (with_role newRole member)).
Proof. done. Qed.

Lemma in_sync_edited member updates :
  u_role updates = None ∨ truthy (updates_role updates) = true →
  in_sync member →
  in_sync (with_permissions
             (if truthy (updates_role updates)
              then getRolePermissions (updates_role updates)
              else permissions member)
             (spread member updates)).
Proof.
  intros Hrole Hsync. unfold in_sync, updates_role in *. simpl.
  destruct Hrole as [Habsent|Htruthy].
  - by rewrite Habsent.
  - rewrite Htruthy. by destruct (u_role updates).
Qed.

Lemma in_sync_found (members : list FamilyMember) P `{∀ m, Decision (P m)} i member :
  Forall in_sync members →
  list_find P members = Some (i, member) →
  in_sync member.
Proof.
  intros Hall (Hi & _)%list_find_Some.
  by eapply (Forall_lookup_1 in_sync).
Qed.

Section Invariant.
Context `{JSString}.

Lemma authenticate_in_sync w familyCode memberName :
  permissions_in_sync (storage w) →
  permissions_in_sync (final (authenticateFamilyMember familyCode memberName w)).
Proof.
  unfold permissions_in_sync. intros Hsync.
  unfold authenticateFamilyMember. unfold_async. cbn [fst snd storage].
  case_decide; [done|].
  fold (stored_members (storage w)).
  destruct (list_find _ (stored_members (storage w))) as [[i existing]|] eqn:Hfind.
  - simpl. apply Forall_insert; [done|].
    apply in_sync_seen. by eapply in_sync_found.
  - simpl. apply Forall_app. split; [done|]. by apply Forall_singleton.
Qed.

Lemma createFamily_in_sync w familyCode memberName :
  permissions_in_sync (storage w) →
  permissions_in_sync (final (createFamily familyCode memberName w)).
Proof.
  unfold permissions_in_sync. intros Hsync.
  unfold createFamily. unfold_async. cbn [fst snd storage].
  destruct (truthy (FAMILY_CODE (storage w))); [done|].
  simpl. by apply Forall_singleton.
Qed.

Lemma addFamilyMember_in_sync w adminUser memberName role_arg email_arg phone_arg :
  permissions_in_sync (storage w) →
  permissions_in_sync
    (storage (snd (addFamilyMember adminUser memberName role_arg email_arg
                     phone_arg w))).
Proof.
  unfold permissions_in_sync. intros Hsync.
  unfold addFamilyMember. unfold_async.
  destruct (negb (hasPermission (role adminUser) KcanAddMembers)); [done|].
  rewrite getFamilyMembers_run.
  destruct (list_find _ (stored_members (storage w))) as [[i existing]|]; [done|].
  rewrite logAdminAction_run. simpl.
  apply Forall_app. split; [done|]. by apply Forall_singleton.
Qed.

End Invariant.

Lemma editFamilyMember_in_sync w adminUser memberId updates :
  u_role updates = None ∨ truthy (updates_role updates) = true →
  permissions_in_sync (storage w) →
  permissions_in_sync
    (storage (snd (editFamilyMember adminUser memberId updates w))).
Proof.
  unfold permissions_in_sync. intros Hrole Hsync.
  unfold editFamilyMember. unfold_async.
  destruct (negb (hasPermission (role adminUser) KcanEditMembers)); [done|].
  rewrite getFamilyMembers_run.
  destruct (list_find _ (stored_members (storage w))) as [[i member]|] eqn:Hfind;
    [|done].
  destruct (truthy (updates_role updates) && _ && _); [done|].
  rewrite logAdminAction_run. simpl.
  apply Forall_insert; [done|].
  apply in_sync_edited; [done|]. by eapply in_sync_found.
Qed.

Lemma changeMemberRole_in_sync w adminUser memberId newRole :
  permissions_in_sync (storage w) →
  permissions_in_sync
    (storage (snd (changeMemberRole adminUser memberId newRole w))).
Proof.
  unfold permissions_in_sync. intros Hsync.
  unfold changeMemberRole. unfold_async.
  destruct (negb (hasPermission (role adminUser) KcanEditMembers)); [done|].
  rewrite getFamilyMembers_run.
  destruct (list_find _ (stored_members (storage w))) as [[i member]|]; [|done].
  case_bool_decide; [done|].
  rewrite logAdminAction_run. simpl.
  apply Forall_insert; [done|]. apply in_sync_changed.
Qed.

Lemma final_bind_Some {A} (c : Async A) w :
  final ((m ← c; mret (Some m)) w) = storage (snd (c w)).
Proof. unfold_async. by destruct (c w) as [[a|e] w']. Qed.

Lemma removeFamilyMember_in_sync w adminUser memberId :
  permissions_in_sync (storage w) →
  permissions_in_sync (storage (snd (removeFamilyMember adminUser memberId w))).
Proof.
  unfold permissions_in_sync. intros Hsync.
  unfold removeFamilyMember. unfold_async.
  destruct (negb (hasPermission (role adminUser) KcanRemoveMembers)); [done|].
  rewrite getFamilyMembers_run.
  destruct (list_find _ (stored_members (storage w))) as [[i member]|]; [|done].
  case_bool_decide; [done|]. case_bool_decide; [done|].
  rewrite logAdminAction_run. simpl.
  apply Forall_forall. intros m [_ Hin]%list_elem_of_filter.
  by apply (proj1 (Forall_forall in_sync _) Hsync).
Qed.

Lemma perform_in_sync `{JSString} (op : MemberOperation) w :
  role_absent_or_truthy op →
  permissions_in_sync (storage w) →
  permissions_in_sync (final (perform op w)).
Proof.
  intros Hrole Hsync. destruct op; unfold perform.
  - by apply authenticate_in_sync.
  - by apply createFamily_in_sync.
  - rewrite final_bind_Some. by apply addFamilyMember_in_sync.
  - rewrite final_bind_Some. by apply editFamilyMember_in_sync.
  - rewrite final_bind_Some. by apply changeMemberRole_in_sync.
Qed.

(** Each of the operations that create or update a member (authenticate,
    createFamily, addMember, changeRole, and editMember when the [role] key
    of the update is absent or truthy) keeps every stored permission set
    equal to [getRolePermissions] of the member's role, whether it succeeds
    or fails. *)
Lemma permissions_stay_in_sync `{JSString} (op : MemberOperation) w outcome w' :
  role_absent_or_truthy op →
  permissions_in_sync (storage w) →
  perform op w = (outcome, w') →
  permissions_in_sync (storage w').
Proof.
  intros Hrole Hsync Hrun.
  pose proof (perform_in_sync op w Hrole Hsync) as Hafter.
  unfold final in Hafter. by rewrite Hrun in Hafter.
Qed.

Lemma permissions_stay_in_sync_witness :
  permissions_in_sync (storage (snd (perform rename_and_promote (snd bob_added)))).
Proof.
  refine (permissions_stay_in_sync rename_and_promote (snd bob_added)
           (fst (perform rename_and_promote (snd bob_added)))
           (snd (perform rename_and_promote (snd bob_added))) _ _ _).
  - by right.
  - unfold permissions_in_sync. vm_compute stored_members.
    repeat constructor.
  - apply surjective_pairing.
Defined.

(** The edit of the witness succeeds and changes the stored record of Bob. *)
Lemma rename_and_promote_run :
  name <$> returned_member (perform rename_and_promote (snd bob_added))
    = Some "Bobby"
  ∧ (λ m, (name m, role m, permissions m)) <$>
      stored_members (final (perform rename_and_promote (snd bob_added)))
    = [("Alice", Some "admin", canonical_table administrator);
       ("Bobby", Some "parent", canonical_table parent)].
Proof. split; by vm_compute. Qed.

(** A successful edit whose [role] key is present and holds a falsy value
    ([undefined], or the empty string) replaces the stored role by that
    value and keeps the permission set the member had. *)
Lemma editFamilyMember_falsy_role w adminUser memberId updates r updated w' :
  u_role updates = Some r →
  truthy r = false →
  editFamilyMember adminUser memberId updates w = (Return updated, w') →
  ∃ i member,
    list_find (λ m, id m = memberId) (stored_members (storage w))
      = Some (i, member)
    ∧ role updated = r
    ∧ permissions updated = permissions member
    ∧ stored_members (storage w') !! i = Some updated.
Proof.
  intros Hkey Hfalsy
    (i & member & Hfind & -> & Hmembers & _)%editFamilyMember_success.
  exists i, member. split; [exact Hfind|].
  assert (Hvalue : updates_role updates = r)
    by (unfold updates_role; by rewrite Hkey).
  rewrite Hvalue, Hfalsy in Hmembers |- *.
  split; [by cbn; rewrite Hkey|]. split; [reflexivity|].
  unfold stored_members at 1. rewrite Hmembers.
  apply list_lookup_insert_eq.
  apply list_find_Some in Hfind as (Hi & _). by eapply lookup_lt_Some.
Qed.

(** C3 (fails on the code): [editFamilyMember] lets the stored permissions
    drift from the role.  In the family of Alice (administrator), Bob
    (child) and Carol (parent), where every stored permission set is the
    one of the role, Alice edits Carol with the update [{ role: undefined }].
    The edit succeeds; the stored record of Carol has no role any more and
    still the permission set of a parent, which is not the set
    [getRolePermissions] gives for its role. *)
Theorem editFamilyMember_role_undefined :
  permissions_in_sync (storage (snd carol_added))
  ∧ ∃ updated w',
      editFamilyMember Alice (id Carol) (role_update None) (snd carol_added)
        = (Return updated, w')
      ∧ role updated = None
      ∧ permissions updated = canonical_table parent
      ∧ getRolePermissions (role updated) = no_capabilities
      ∧ stored_members (storage w') !! 2 = Some updated
      ∧ ¬ permissions_in_sync (storage w').
Proof.
  split.
  { unfold permissions_in_sync. vm_compute stored_members. repeat constructor. }
  destruct (editFamilyMember Alice (id Carol) (role_update None)
              (snd carol_added)) as [outcome w'] eqn:Hrun.
  assert (Hreturn : outcome = Return (with_role None Carol)).
  { change outcome with (fst (outcome, w')). rewrite <- Hrun. by vm_compute. }
  subst outcome. exists (with_role None Carol), w'.
  destruct (editFamilyMember_falsy_role (snd carol_added) Alice (id Carol)
              (role_update None) None _ _ eq_refl eq_refl Hrun)
    as (i & member & Hfind & _ & _ & Hstored).
  assert (Hcarol :
    list_find (λ m, id m = id Carol) (stored_members (storage (snd carol_added)))
    = Some (2, Carol)) by (by vm_compute).
  rewrite Hcarol in Hfind. injection Hfind as <- <-.
  split; [reflexivity|]. split; [reflexivity|]. split; [by vm_compute|].
  split; [by vm_compute|]. split; [exact Hstored|].
  intros Hsync. unfold permissions_in_sync in Hsync.
  pose proof (Forall_lookup_1 _ _ _ _ Hsync Hstored) as Hdrift.
  by vm_compute in Hdrift.
Qed.

(** ** Messages *)

Lemma participants_pair msg (A B : string) :
  participants msg = {[A; B]} ↔
  (senderId msg = A ∧ receiverId msg = B) ∨ (senderId msg = B ∧ receiverId msg = A).
Proof.
  unfold participants. split.
  - intros Heq.
    assert (Hs : senderId msg ∈ ({[A; B]} : gset string))
      by (rewrite <- Heq; apply elem_of_union_l; by apply elem_of_singleton).
    assert (Hr : receiverId msg ∈ ({[A; B]} : gset string))
      by (rewrite <- Heq; apply elem_of_union_r; by apply elem_of_singleton).
    assert (HA : A ∈ ({[senderId msg; receiverId msg]} : gset string))
      by (rewrite Heq; apply elem_of_union_l; by apply elem_of_singleton).
    assert (HB : B ∈ ({[senderId msg; receiverId msg]} : gset string))
      by (rewrite Heq; apply elem_of_union_r; by apply elem_of_singleton).
    rewrite elem_of_union, !elem_of_singleton in Hs, Hr, HA, HB.
    destruct Hs, Hr, HA, HB; subst; auto.
  - intros [[-> ->]|[-> ->]]; [done|]. apply (comm_L (∪)).
Qed.

Lemma with_member_pair memberId user msg :
  with_member memberId (Some user) msg = true ↔
  participants msg = {[memberId; id user]}.
Proof.
  rewrite participants_pair. unfold with_member. simpl.
  rewrite orb_true_iff, !andb_true_iff, !bool_decide_eq_true.
  intuition congruence.
Qed.

Lemma filteredMessages_filter memberId user allMessages :
  filteredMessages memberId (Some user) allMessages
    = filter (λ msg, participants msg = {[memberId; id user]}) allMessages.
Proof.
  unfold filteredMessages. apply list_filter_iff.
  intros msg. apply with_member_pair.
Qed.

(** The filter is the same from both ends of the conversation. *)
Lemma filteredMessages_symmetric (a b : FamilyMember) allMessages :
  filteredMessages (id a) (Some b) allMessages
    = filteredMessages (id b) (Some a) allMessages.
Proof.
  rewrite !filteredMessages_filter.
  apply list_filter_iff. intros msg.
  by rewrite (comm_L (∪) {[id a]} {[id b]}).
Qed.

(** C9: the member-chat filter returns exactly the stored messages whose
    unordered pair of sender and receiver is the pair of the two
    identities, in either direction and no others, in the order of the
    stored collection. *)
Theorem filteredMessages_between (memberId : string) (user : FamilyMember)
    (allMessages : list Message) :
  filteredMessages memberId (Some user) allMessages
    = filter (λ msg, participants msg = {[memberId; id user]}) allMessages
  ∧ filteredMessages memberId (Some user) allMessages `sublist_of` allMessages
  ∧ (∀ msg, msg ∈ filteredMessages memberId (Some user) allMessages ↔
            msg ∈ allMessages
            ∧ ((senderId msg = memberId ∧ receiverId msg = id user)
               ∨ (senderId msg = id user ∧ receiverId msg = memberId))).
Proof.
  split; [|split].
  - apply filteredMessages_filter.
  - apply sublist_filter.
  - intros msg. unfold filteredMessages. rewrite list_elem_of_filter.
    rewrite with_member_pair, participants_pair. tauto.
Qed.

(** [loadChatData], opened on a member and without a chat identifier, puts
    the filtered stored collection into the screen. *)
Lemma loadChatData_with_member route screen w user :
  truthy (route_chatId route) = false →
  memberId route ≠ "" →
  CURRENT_USER (storage w) = Some user →
  ∃ screen' w',
    loadChatData route screen w = (Return screen', w')
    ∧ storage w' = storage w
    ∧ messages screen'
      = filter (λ msg, participants msg = {[memberId route; id user]})
          (stored_messages (storage w)).
Proof.
  intros Hchat Hmember Huser.
  unfold loadChatData, getCurrentUser. unfold_async.
  rewrite Huser, Hchat. cbn [truthy]. rewrite bool_decide_false by done.
  cbn [negb]. rewrite getMessages_run. do 2 eexists.
  split; [reflexivity|]. split; [reflexivity|]. cbn [messages].
  set (reader := seen _ _ user).
  change (id user) with (id reader).
  exact (filteredMessages_filter (memberId route) reader _).
Qed.

Section Sending.
Context `{JSString}.

Lemma sendMessage_run route screen sender w :
  currentUser screen = Some sender →
  trim (newMessage screen) ≠ "" →
  ∃ message w',
    send_message_object route sender (newMessage screen) w
      = (Return message, tick (tick (tick w)))
    ∧ sendMessage route screen w
      = (Return {| messages := messages screen ++ [message];
                   newMessage := "";
                   currentUser := currentUser screen;
                   isLoading := isLoading screen |}, w')
    ∧ storage w'
      = set_MESSAGES (stored_messages (storage w) ++ [message]) (storage w).
Proof.
  intros Hsender Htyped.
  unfold sendMessage, addMessage. rewrite Hsender.
  rewrite bool_decide_false by done.
  unfold send_message_object. unfold_async. cbn [fst snd].
  rewrite getMessages_run. do 2 eexists.
  split; [reflexivity|]. split; reflexivity.
Qed.

(** C8 (as the code has it): when there is a current user and the typed
    text is not blank, [sendMessage] builds a text message, with an
    identifier made of the time and a random draw, the trimmed text, the
    current user as sender and the route's member as receiver, and appends
    exactly that message to the end of the stored collection; the messages
    stored before are kept, in place. *)
Theorem sendMessage_appends route screen sender w :
  currentUser screen = Some sender →
  trim (newMessage screen) ≠ "" →
  ∃ message screen' w',
    sendMessage route screen w = (Return screen', w')
    ∧ msg_id message
      = "msg_" +:+ pretty (clock w (reads w)) +:+ "_" +:+ random w (S (reads w))
    ∧ senderId message = id sender
    ∧ receiverId message = memberId route
    ∧ content message = trim (newMessage screen)
    ∧ type message = text
    ∧ MESSAGES (storage w') = Some (stored_messages (storage w) ++ [message])
    ∧ messages screen' = messages screen ++ [message].
Proof.
  intros Hsender Htyped.
  destruct (sendMessage_run route screen sender w Hsender Htyped)
    as (message & w' & Hobject & Hrun & Hstore).
  exists message. do 2 eexists. split; [exact Hrun|].
  unfold send_message_object in Hobject. unfold_async.
  injection Hobject as <-. rewrite Hstore. done.
Qed.

(** Nothing is sent when the typed text is blank or nobody is logged in. *)
Lemma sendMessage_blank route screen w :
  trim (newMessage screen) = "" ∨ currentUser screen = None →
  sendMessage route screen w = (Return screen, w).
Proof.
  unfold sendMessage. intros [Hblank| ->]; [|done].
  destruct (currentUser screen); [|done]. by rewrite bool_decide_true.
Qed.

End Sending.

Lemma sendMessage_appends_witness :
  ∃ message screen' w',
    sendMessage chat_with_Bob (typed "  Hello Bob ") (snd bob_added)
      = (Return screen', w')
    ∧ msg_id message = "msg_1700000000013_4fzyo82mv"
    ∧ senderId message = id Alice
    ∧ receiverId message = id Bob
    ∧ content message = "Hello Bob"
    ∧ type message = text
    ∧ MESSAGES (storage w') = Some [message]
    ∧ messages screen' = [message].
Proof.
  destruct (sendMessage_appends chat_with_Bob (typed "  Hello Bob ") Alice
              (snd bob_added))
    as (message & screen' & w' & Hrun & Hid & Hfrom & Hto & Htext & Htype
        & Hstore & Hscreen).
  - reflexivity.
  - vm_compute. discriminate.
  - exists message, screen', w'.
    rewrite Hid, Hfrom, Hto, Htext, Htype, Hstore, Hscreen.
    repeat split; try done; by vm_compute.
Defined.

(** C8 as stated fails.  The message Alice sends to Bob is stored without a
    delivery status, not with the status [sent]; and a text of blanks,
    which is not empty, sends nothing. *)
Lemma sendMessage_status_counterexample :
  (∃ message,
     stored_messages
       (final (sendMessage chat_with_Bob (typed "Hello Bob") (snd bob_added)))
       = [message]
     ∧ senderId message = id Alice
     ∧ receiverId message = id Bob
     ∧ content message = "Hello Bob"
     ∧ status message = None
     ∧ status message ≠ Some sent)
  ∧ stored_messages
      (final (sendMessage chat_with_Bob (typed "   ") (snd bob_added)))
    = stored_messages (storage (snd bob_added)).
Proof.
  split; [|by vm_compute].
  eexists. split; [by vm_compute|]. by repeat split.
Qed.

(** * Further properties of the code *)

(** ** Roles and capabilities *)

Lemma hasPermission_cases (r : FamilyRole) (k : PermissionKey) :
  hasPermission r k = true →
  r = Some "admin"
  ∨ (r = Some "parent"
     ∧ k ∈ [KcanAddMembers; KcanEditMembers; KcanModerateContent;
            KcanViewAnalytics; KcanInviteGuests])
  ∨ (r = Some "grandparent" ∧ k = KcanViewAnalytics).
Proof.
  unfold hasPermission, getRolePermissions.
  repeat case_decide; subst; destruct k; simpl; intros Hk; try done;
    auto; right; left; (split; [done|]); compute_done.
Qed.

Lemma canEditMembers_roles (r : FamilyRole) :
  hasPermission r KcanEditMembers = true ↔ r = Some "admin" ∨ r = Some "parent".
Proof.
  split.
  - intros [->|[[-> _]|[_ [=]]]]%hasPermission_cases; auto.
  - by intros [-> | ->].
Qed.

Lemma canAddMembers_roles (r : FamilyRole) :
  hasPermission r KcanAddMembers = true ↔ r = Some "admin" ∨ r = Some "parent".
Proof.
  split.
  - intros [->|[[-> _]|[_ [=]]]]%hasPermission_cases; auto.
  - by intros [-> | ->].
Qed.

(** X1: the admin panel is shown exactly to a logged-in administrator or
    parent: [canManageMembers] holds of these two roles and of no other role
    value. *)
Theorem hasAdminAccess_roles (screen : AdminScreen) :
  hasAdminAccess screen = true ↔
  ∃ user, admin_currentUser screen = Some user
          ∧ (role user = Some "admin" ∨ role user = Some "parent").
Proof.
  unfold hasAdminAccess, canManageMembers.
  destruct (admin_currentUser screen) as [user|].
  - split.
    + intros [[Hadd|Hrm]%orb_true_iff|Hedit]%orb_true_iff; exists user.
      * apply canAddMembers_roles in Hadd. auto.
      * apply canRemoveMembers_admin in Hrm. auto.
      * apply canEditMembers_roles in Hedit. auto.
    + intros (? & [= <-] & Hrole).
      apply canAddMembers_roles in Hrole. by rewrite Hrole.
  - split; [done|]. by intros (? & [=] & _).
Qed.

(** X2: the capabilities are inherited upwards: what a grandparent may do a
    parent may do, what a parent may do an administrator may do, the
    administrator may do everything, and a role value that is none of these
    three may do nothing. *)
Theorem capabilities_inherited (k : PermissionKey) :
  hasPermission (Some "admin") k = true
  ∧ (hasPermission (Some "grandparent") k = true →
     hasPermission (Some "parent") k = true)
  ∧ (∀ r : FamilyRole,
       hasPermission r k = true →
       hasPermission (Some "admin") k = true
       ∧ (r = Some "admin" ∨ r = Some "parent" ∨ r = Some "grandparent")).
Proof.
  split; [by destruct k|]. split; [by destruct k|].
  intros r Hk. split; [by destruct k|].
  apply hasPermission_cases in Hk as [?|[[? _]|[? _]]]; auto.
Qed.

Lemma capabilities_inherited_witness :
  hasPermission (Some "admin") KcanViewAnalytics = true
  ∧ (hasPermission (Some "grandparent") KcanViewAnalytics = true →
     hasPermission (Some "parent") KcanViewAnalytics = true)
  ∧ (∀ r : FamilyRole,
       hasPermission r KcanViewAnalytics = true →
       hasPermission (Some "admin") KcanViewAnalytics = true
       ∧ (r = Some "admin" ∨ r = Some "parent" ∨ r = Some "grandparent")).
Proof. exact (capabilities_inherited KcanViewAnalytics). Defined.

(** X3: removing members, managing settings and managing the backup are
    reserved to the administrator: for every role value each of the three
    checks agrees with [isAdmin]. *)
Theorem administrator_only_capabilities (r : FamilyRole) :
  hasPermission r KcanRemoveMembers = isAdmin r
  ∧ roleCanManageSettings r = isAdmin r
  ∧ hasPermission r KcanManageBackup = isAdmin r.
Proof.
  unfold roleCanManageSettings, isAdmin, hasPermission, getRolePermissions.
  repeat case_decide; subst; simpl;
    rewrite ?bool_decide_true, ?bool_decide_false by done; done.
Qed.

(** X4: [canChangeRole] allows a change exactly when the acting role is the
    administrator and neither the current nor the new role is: it never
    lets an administrator be demoted nor anybody be promoted to
    administrator. *)
Theorem canChangeRole_allows (currentRole newRole adminRole : FamilyRole) :
  canChangeRole currentRole newRole adminRole = true ↔
  adminRole = Some "admin" ∧ currentRole ≠ Some "admin" ∧ newRole ≠ Some "admin".
Proof.
  unfold canChangeRole. repeat case_bool_decide; simpl; intuition congruence.
Qed.

(** ** Authorization and failure of the admin operations *)

Section AdminOperations.
Context `{JSString}.

Lemma addFamilyMember_run w actor memberName role_arg email_arg phone_arg :
  hasPermission (role actor) KcanAddMembers = true →
  list_find (λ m, toLowerCase (name m) = toLowerCase memberName)
    (stored_members (storage w)) = None →
  addFamilyMember actor memberName role_arg email_arg phone_arg w
  = (Return (added_member w memberName role_arg email_arg phone_arg),
     with_storage
       (set_ADMIN_ACTIONS
          (most_recent 100
             (stored_actions (storage w)
              ++ [logged (tick (tick (tick (tick w)))) (id actor) add_member
                    (Some (id (added_member w memberName role_arg email_arg
                                 phone_arg)))
                    (Some ("Added new family member: " +:+ memberName
                           +:+ " with role: " +:+ default "other" role_arg))]))
          (set_FAMILY_MEMBERS
             (stored_members (storage w)
              ++ [added_member w memberName role_arg email_arg phone_arg])
             (storage w)))
       (tick (tick (tick (tick (tick (tick (tick w)))))))).
Proof.
  intros Hmay Hfree. unfold addFamilyMember. unfold_async.
  rewrite Hmay. cbn [negb]. rewrite getFamilyMembers_run, Hfree.
  cbn [fst snd]. rewrite logAdminAction_run. reflexivity.
Qed.

(** X5: the admin operations check the role of the actor first.  Nobody
    but an administrator can remove a member, and nobody but an
    administrator or a parent can add or edit a member or change a role:
    the call is rejected with the insufficient-permissions error of the
    operation and nothing is changed. *)
Theorem operations_refuse_unauthorized w actor :
  role actor ≠ Some "admin" →
  (∀ memberId,
     removeFamilyMember actor memberId w
     = (Throw "Insufficient permissions to remove family members", w))
  ∧ (role actor ≠ Some "parent" →
     (∀ memberName role_arg email_arg phone_arg,
        addFamilyMember actor memberName role_arg email_arg phone_arg w
        = (Throw "Insufficient permissions to add family members", w))
     ∧ (∀ memberId updates,
          editFamilyMember actor memberId updates w
          = (Throw "Insufficient permissions to edit family members", w))
     ∧ (∀ memberId newRole,
          changeMemberRole actor memberId newRole w
          = (Throw "Insufficient permissions to change member roles", w))).
Proof.
  intros Hadmin.
  assert (Hremove : hasPermission (role actor) KcanRemoveMembers = false).
  { apply not_true_is_false. by intros Hmay%canRemoveMembers_admin. }
  split.
  { intros memberId. unfold removeFamilyMember. unfold_async.
    by rewrite Hremove. }
  intros Hparent.
  assert (Hadd : hasPermission (role actor) KcanAddMembers = false).
  { apply not_true_is_false. intros Hmay%canAddMembers_roles. tauto. }
  assert (Hedit : hasPermission (role actor) KcanEditMembers = false).
  { apply not_true_is_false. intros Hmay%canEditMembers_roles. tauto. }
  repeat split; intros.
  - unfold addFamilyMember. unfold_async. by rewrite Hadd.
  - unfold editFamilyMember. unfold_async. by rewrite Hedit.
  - unfold changeMemberRole. unfold_async. by rewrite Hedit.
Qed.

Lemma addFamilyMember_failure w actor memberName role_arg email_arg phone_arg
    message w' :
  addFamilyMember actor memberName role_arg email_arg phone_arg w
    = (Throw message, w') →
  w' = w.
Proof.
  unfold addFamilyMember. unfold_async.
  destruct (negb (hasPermission (role actor) KcanAddMembers)); [by intros [=]|].
  rewrite getFamilyMembers_run.
  destruct (list_find _ (stored_members (storage w))) as [[i existing]|];
    [by intros [=]|].
  cbn [fst snd]. rewrite logAdminAction_run. by intros [=].
Qed.

Lemma editFamilyMember_failure w actor memberId updates message w' :
  editFamilyMember actor memberId updates w = (Throw message, w') → w' = w.
Proof.
  unfold editFamilyMember. unfold_async.
  destruct (negb (hasPermission (role actor) KcanEditMembers)); [by intros [=]|].
  rewrite getFamilyMembers_run.
  destruct (list_find _ (stored_members (storage w))) as [[i member]|];
    [|by intros [=]].
  destruct (truthy (updates_role updates) && _ && _); [by intros [=]|].
  cbn [fst snd]. rewrite logAdminAction_run. by intros [=].
Qed.

Lemma changeMemberRole_failure w actor memberId newRole message w' :
  changeMemberRole actor memberId newRole w = (Throw message, w') → w' = w.
Proof.
  unfold changeMemberRole. unfold_async.
  destruct (negb (hasPermission (role actor) KcanEditMembers)); [by intros [=]|].
  rewrite getFamilyMembers_run.
  destruct (list_find _ (stored_members (storage w))) as [[i member]|];
    [|by intros [=]].
  case_bool_decide; [by intros [=]|].
  cbn [fst snd]. rewrite logAdminAction_run. by intros [=].
Qed.

Lemma removeFamilyMember_failure w actor memberId message w' :
  removeFamilyMember actor memberId w = (Throw message, w') → w' = w.
Proof.
  unfold removeFamilyMember. unfold_async.
  destruct (negb (hasPermission (role actor) KcanRemoveMembers)); [by intros [=]|].
  rewrite getFamilyMembers_run.
  destruct (list_find _ (stored_members (storage w))) as [[i member]|];
    [|by intros [=]].
  case_bool_decide; [by intros [=]|]. case_bool_decide; [by intros [=]|].
  cbn [fst snd]. rewrite logAdminAction_run. by intros [=].
Qed.

Lemma createFamily_failure w familyCode memberName message w' :
  createFamily familyCode memberName w = (Throw message, w') →
  w' = w ∧ message = "Failed to create family"
  ∧ truthy (FAMILY_CODE (storage w)) = true.
Proof.
  unfold createFamily. unfold_async.
  destruct (truthy (FAMILY_CODE (storage w))); [by intros [= <- <-]|].
  by intros [=].
Qed.

Lemma authenticate_no_failure w familyCode memberName message w' :
  authenticateFamilyMember familyCode memberName w ≠ (Throw message, w').
Proof.
  unfold authenticateFamilyMember. unfold_async.
  case_decide; [by intros [=]|].
  destruct (list_find _ _) as [[i existing]|]; by intros [=].
Qed.

(** X6: an operation of the member directory that fails has changed
    nothing: whenever authenticate, createFamily, addMember, editMember,
    changeRole or removeMember is rejected, the storage, and so the member
    collection and the admin log, is as before the call. *)
Theorem failed_operation_changes_nothing w message w' :
  (∀ op, perform op w = (Throw message, w') → w' = w)
  ∧ (∀ actor memberId,
       removeFamilyMember actor memberId w = (Throw message, w') → w' = w).
Proof.
  split; [|intros actor memberId; apply removeFamilyMember_failure].
  intros [code memberName|code memberName|actor memberName r e p
          |actor memberId updates|actor memberId newRole]; unfold perform.
  - intros Hrun. by apply authenticate_no_failure in Hrun.
  - intros Hrun. by apply createFamily_failure in Hrun as [? _].
  - unfold mbind, Async_bind.
    destruct (addFamilyMember _ _ _ _ _ w) as [[m|err] w1] eqn:Hrun;
      [by intros [=]|].
    intros [= -> ->]. by eapply addFamilyMember_failure.
  - unfold mbind, Async_bind.
    destruct (editFamilyMember _ _ _ w) as [[m|err] w1] eqn:Hrun;
      [by intros [=]|].
    intros [= -> ->]. by eapply editFamilyMember_failure.
  - unfold mbind, Async_bind.
    destruct (changeMemberRole _ _ _ w) as [[m|err] w1] eqn:Hrun;
      [by intros [=]|].
    intros [= -> ->]. by eapply changeMemberRole_failure.
Qed.

(** X7: an administrator or a parent adding a name that no stored member
    has, up to case, succeeds: the new member has the given name, the given
    role (['other'] when none is given) and the permission set of that role,
    is offline, active and without a device; it is appended to the stored
    members, and one [add_member] action naming the actor and the new member
    is logged. *)
Theorem addFamilyMember_success w actor memberName role_arg email_arg phone_arg :
  role actor = Some "admin" ∨ role actor = Some "parent" →
  (∀ m, m ∈ stored_members (storage w) →
        toLowerCase (name m) ≠ toLowerCase memberName) →
  ∃ newMember action w',
    addFamilyMember actor memberName role_arg email_arg phone_arg w
      = (Return newMember, w')
    ∧ name newMember = memberName
    ∧ role newMember = Some (default "other" role_arg)
    ∧ permissions newMember
      = getRolePermissions (Some (default "other" role_arg))
    ∧ email newMember = email_arg ∧ phone newMember = phone_arg
    ∧ isOnline newMember = false ∧ isActive newMember = true
    ∧ deviceId newMember = ""
    ∧ FAMILY_MEMBERS (storage w')
      = Some (stored_members (storage w) ++ [newMember])
    ∧ ADMIN_ACTIONS (storage w')
      = Some (most_recent 100 (stored_actions (storage w) ++ [action]))
    ∧ operation action = add_member
    ∧ adminId action = id actor
    ∧ targetMemberId action = Some (id newMember).
Proof.
  intros Hrole%canAddMembers_roles Hfree.
  assert (Hfind : list_find (λ m, toLowerCase (name m) = toLowerCase memberName)
                    (stored_members (storage w)) = None).
  { apply list_find_None, Forall_forall. exact Hfree. }
  do 3 eexists. split; [by apply addFamilyMember_run|].
  cbn. done.
Qed.

(** X8: adding a name that a stored member already has, up to case, is
    rejected with the duplicate-name error and changes nothing. *)
Theorem addFamilyMember_duplicate w actor memberName role_arg email_arg phone_arg
    existing :
  role actor = Some "admin" ∨ role actor = Some "parent" →
  existing ∈ stored_members (storage w) →
  toLowerCase (name existing) = toLowerCase memberName →
  addFamilyMember actor memberName role_arg email_arg phone_arg w
  = (Throw "Family member with this name already exists", w).
Proof.
  intros Hrole%canAddMembers_roles Hin Hsame.
  destruct (list_find_elem_of
              (λ m, toLowerCase (name m) = toLowerCase memberName)
              (stored_members (storage w)) existing Hin Hsame) as [[i m] Hfind].
  unfold addFamilyMember. unfold_async. rewrite Hrole. cbn [negb].
  by rewrite getFamilyMembers_run, Hfind.
Qed.

End AdminOperations.

Lemma operations_refuse_unauthorized_witness :
  removeFamilyMember Bob (id Alice) (snd bob_added)
  = (Throw "Insufficient permissions to remove family members", snd bob_added).
Proof.
  refine (proj1 (operations_refuse_unauthorized (snd bob_added) Bob _) (id Alice)).
  vm_compute. discriminate.
Defined.

Lemma failed_operation_changes_nothing_witness :
  snd (removeFamilyMember Alice (id Alice) (snd bob_added)) = snd bob_added.
Proof.
  refine (proj2 (failed_operation_changes_nothing (snd bob_added)
                   CannotRemoveAdmin
                   (snd (removeFamilyMember Alice (id Alice) (snd bob_added))))
            Alice (id Alice) _).
  rewrite (surjective_pairing (removeFamilyMember _ _ _)) at 1.
  f_equal; by vm_compute.
Defined.

Lemma addFamilyMember_success_witness :
  ∃ newMember action w',
    addFamilyMember Alice "Carol" (Some "parent") (Some "carol@example.org")
      None (snd bob_added)
      = (Return newMember, w')
    ∧ name newMember = "Carol"
    ∧ role newMember = Some "parent"
    ∧ permissions newMember = canonical_table parent
    ∧ FAMILY_MEMBERS (storage w') = Some [Alice; Bob; newMember]
    ∧ operation action = add_member
    ∧ targetMemberId action = Some (id newMember).
Proof.
  destruct (addFamilyMember_success (snd bob_added) Alice "Carol" (Some "parent")
              (Some "carol@example.org") None)
    as (newMember & action & w' & Hrun & Hname & Hrole & Hperm & _ & _ & _ & _
        & _ & Hstored & _ & Hop & _ & Htarget).
  - left. reflexivity.
  - apply (proj1 (Forall_forall
                    (λ m, toLowerCase (name m) ≠ toLowerCase "Carol") _)).
    compute_done.
  - exists newMember, action, w'. split; [exact Hrun|].
    rewrite Hname, Hrole, Hperm, Hstored, Hop, Htarget.
    repeat split; by vm_compute.
Defined.

Lemma addFamilyMember_duplicate_witness :
  addFamilyMember Alice "BOB" None None None (snd bob_added)
  = (Throw "Family member with this name already exists", snd bob_added).
Proof.
  apply (addFamilyMember_duplicate (snd bob_added) Alice "BOB" None None None Bob).
  - left. reflexivity.
  - compute_done.
  - reflexivity.
Defined.

(** ** Joining a family *)

Section Joining.
Context `{JSString}.

Lemma authenticate_existing_run w familyCode memberName i existing :
  FAMILY_CODE (storage w) = Some familyCode →
  list_find (λ m, toLowerCase (name m) = toLowerCase memberName)
    (stored_members (storage w)) = Some (i, existing) →
  authenticateFamilyMember familyCode memberName w
  = (Return (Some (seen (clock w (reads w)) true existing)),
     with_storage
       (set_CURRENT_USER (seen (clock w (reads w)) true existing)
          (set_FAMILY_MEMBERS
             (<[i := seen (clock w (reads w)) true existing]>
                (stored_members (storage w)))
             (storage w)))
       (tick w)).
Proof.
  intros Hcode Hfind. unfold authenticateFamilyMember. unfold_async.
  cbn [fst snd]. rewrite Hcode. rewrite decide_False by (by intros []).
  fold (stored_members (storage w)). by rewrite Hfind.
Qed.

Lemma authenticate_new_run w familyCode memberName :
  FAMILY_CODE (storage w) = Some familyCode →
  list_find (λ m, toLowerCase (name m) = toLowerCase memberName)
    (stored_members (storage w)) = None →
  authenticateFamilyMember familyCode memberName w
  = (Return (Some (joined_member w memberName)),
     with_storage
       (set_CURRENT_USER (joined_member w memberName)
          (set_FAMILY_MEMBERS
             (stored_members (storage w) ++ [joined_member w memberName])
             (storage w)))
       (tick (tick (tick (tick (tick (tick w))))))).
Proof.
  intros Hcode Hfind. unfold authenticateFamilyMember. unfold_async.
  cbn [fst snd]. rewrite Hcode. rewrite decide_False by (by intros []).
  fold (stored_members (storage w)). by rewrite Hfind.
Qed.

(** X9: with the right family code and a name that a stored member has,
    up to case, [authenticateFamilyMember] logs in the first such member: it
    returns that member, marked online and seen now, with its identifier,
    name, role and permissions as stored; it puts the same record in place
    of the stored one and makes it the current user; no member is added and
    no other member is touched. *)
Theorem authenticate_existing_member w familyCode memberName i existing :
  FAMILY_CODE (storage w) = Some familyCode →
  list_find (λ m, toLowerCase (name m) = toLowerCase memberName)
    (stored_members (storage w)) = Some (i, existing) →
  ∃ user w',
    authenticateFamilyMember familyCode memberName w = (Return (Some user), w')
    ∧ id user = id existing ∧ name user = name existing
    ∧ role user = role existing ∧ permissions user = permissions existing
    ∧ isOnline user = true ∧ lastSeen user = clock w (reads w)
    ∧ CURRENT_USER (storage w') = Some user
    ∧ stored_members (storage w') !! i = Some user
    ∧ length (stored_members (storage w')) = length (stored_members (storage w))
    ∧ (∀ j, j ≠ i →
            stored_members (storage w') !! j = stored_members (storage w) !! j)
    ∧ ADMIN_ACTIONS (storage w') = ADMIN_ACTIONS (storage w).
Proof.
  intros Hcode Hfind. do 2 eexists.
  split; [by apply authenticate_existing_run|].
  apply list_find_Some in Hfind as (Hi & _ & _).
  cbn. repeat split.
  - apply list_lookup_insert_eq. by eapply lookup_lt_Some.
  - apply length_insert.
  - intros j Hj. by apply list_lookup_insert_ne.
Qed.

(** X10: with the right family code and a name that no stored member has,
    [authenticateFamilyMember] makes a new member with that name, the role
    ['other'] and no capability at all, online and active, appends it to the
    stored members and makes it the current user; it needs no approval and
    writes nothing to the admin log. *)
Theorem authenticate_new_member w familyCode memberName :
  FAMILY_CODE (storage w) = Some familyCode →
  (∀ m, m ∈ stored_members (storage w) →
        toLowerCase (name m) ≠ toLowerCase memberName) →
  ∃ user w',
    authenticateFamilyMember familyCode memberName w = (Return (Some user), w')
    ∧ name user = memberName ∧ role user = Some "other"
    ∧ permissions user = no_capabilities
    ∧ isOnline user = true ∧ isActive user = true
    ∧ CURRENT_USER (storage w') = Some user
    ∧ FAMILY_MEMBERS (storage w') = Some (stored_members (storage w) ++ [user])
    ∧ ADMIN_ACTIONS (storage w') = ADMIN_ACTIONS (storage w).
Proof.
  intros Hcode Hfree.
  assert (Hfind : list_find (λ m, toLowerCase (name m) = toLowerCase memberName)
                    (stored_members (storage w)) = None).
  { apply list_find_None, Forall_forall. exact Hfree. }
  do 2 eexists. split; [by apply authenticate_new_run|]. by cbn.
Qed.

(** X11: logging in twice does not make two members.  After a login with
    the family code, a further login with the same name, in any
    capitalisation, returns a member with the same identifier and leaves the
    number of stored members as it is. *)
Theorem authenticate_again w familyCode memberName memberName' :
  FAMILY_CODE (storage w) = Some familyCode →
  toLowerCase memberName' = toLowerCase memberName →
  ∃ user w1 again w2,
    authenticateFamilyMember familyCode memberName w = (Return (Some user), w1)
    ∧ authenticateFamilyMember familyCode memberName' w1
      = (Return (Some again), w2)
    ∧ id again = id user
    ∧ length (stored_members (storage w2)) = length (stored_members (storage w1)).
Proof.
  intros Hcode Hsame.
  set (P := λ m, toLowerCase (name m) = toLowerCase memberName).
  assert (HP : ∀ l, list_find (λ m, toLowerCase (name m) = toLowerCase memberName') l
                    = list_find P l).
  { intros l. apply list_find_ext. intros m. unfold P. by rewrite Hsame. }
  destruct (list_find P (stored_members (storage w))) as [[i existing]|] eqn:Hfind.
  - eexists _, _. 
    pose proof (authenticate_existing_run w _ _ _ _ Hcode Hfind) as Hrun.
    set (user := seen (clock w (reads w)) true existing) in *.
    set (w1 := with_storage _ _) in Hrun.
    assert (Hfind1 : list_find P (stored_members (storage w1)) = Some (i, user)).
    { apply list_find_Some in Hfind as (Hi & Hname & Hleast).
      apply list_find_Some. cbn. split_and!.
      - apply list_lookup_insert_eq. by eapply lookup_lt_Some.
      - exact Hname.
      - intros j y Hj Hlt. rewrite list_lookup_insert_ne in Hj by lia. eauto. }
    rewrite <- HP in Hfind1.
    pose proof (authenticate_existing_run w1 familyCode memberName' _ _ Hcode
                  Hfind1) as Hrun1.
    eexists _, _. split; [exact Hrun|]. split; [exact Hrun1|].
    split; [done|]. cbn. apply length_insert.
  - eexists _, _.
    pose proof (authenticate_new_run w _ _ Hcode Hfind) as Hrun.
    set (user := joined_member w memberName) in *.
    set (w1 := with_storage _ _) in Hrun.
    assert (Hfind1 : list_find P (stored_members (storage w1))
                     = Some (length (stored_members (storage w)), user)).
    { cbn. apply list_find_app_Some. right. split; [done|]. split; [done|].
      rewrite Nat.sub_diag. cbn. by rewrite decide_True. }
    rewrite <- HP in Hfind1.
    pose proof (authenticate_existing_run w1 familyCode memberName' _ _ Hcode
                  Hfind1) as Hrun1.
    eexists _, _. split; [exact Hrun|]. split; [exact Hrun1|].
    split; [done|]. cbn. apply length_insert.
Qed.

(** X12: [createFamily] is refused, with the general creation error and
    without any change, exactly when a non-empty family code is stored;
    otherwise it stores the code and makes the creator the only member, an
    administrator with every capability and the current user (members stored
    before are replaced), and stores the default settings named after the
    creator. *)
Theorem createFamily_outcome w familyCode memberName :
  (truthy (FAMILY_CODE (storage w)) = true →
   createFamily familyCode memberName w = (Throw "Failed to create family", w))
  ∧ (truthy (FAMILY_CODE (storage w)) = false →
     ∃ creator w',
       createFamily familyCode memberName w = (Return (Some creator), w')
       ∧ name creator = memberName ∧ role creator = Some "admin"
       ∧ permissions creator = canonical_table administrator
       ∧ FAMILY_CODE (storage w') = Some familyCode
       ∧ FAMILY_MEMBERS (storage w') = Some [creator]
       ∧ CURRENT_USER (storage w') = Some creator
       ∧ FAMILY_SETTINGS (storage w')
         = Some {| familyName := memberName +:+ "'s Family";
                   allowGuestInvites := false; messageRetentionDays := 365;
                   requireApprovalForJoining := false; maxMembers := 20;
                   autoArchiveOldChats := true; emergencyContacts := [] |}).
Proof.
  split; intros Hcode; unfold createFamily; unfold_async; rewrite Hcode.
  - reflexivity.
  - do 2 eexists. split; [reflexivity|]. by cbn.
Qed.

End Joining.

Lemma authenticate_existing_member_witness :
  ∃ user w',
    authenticateFamilyMember "FAM123" "bob" (snd bob_added)
      = (Return (Some user), w')
    ∧ id user = id Bob ∧ name user = "Bob" ∧ role user = Some "child"
    ∧ isOnline user = true
    ∧ stored_members (storage w') = [Alice; user].
Proof.
  destruct (authenticate_existing_member (snd bob_added) "FAM123" "bob" 1 Bob)
    as (user & w' & Hrun & Hid & Hname & Hrole & _ & Honline & _ & _ & Hat
        & Hlen & Hrest & _).
  - reflexivity.
  - by vm_compute.
  - exists user, w'. split; [exact Hrun|].
    rewrite Hid, Hname, Hrole, Honline. repeat split; try by vm_compute.
    assert (Hfirst := Hrest 0 (Nat.neq_0_succ 0)).
    destruct (stored_members (storage w')) as [|a [|b [|c rest]]];
      try discriminate.
    vm_compute in Hfirst. injection Hfirst as ->. injection Hat as ->.
    by vm_compute.
Defined.

Lemma authenticate_new_member_witness :
  ∃ user w',
    authenticateFamilyMember "FAM123" "Dana" (snd bob_added)
      = (Return (Some user), w')
    ∧ name user = "Dana" ∧ role user = Some "other"
    ∧ permissions user = no_capabilities
    ∧ FAMILY_MEMBERS (storage w') = Some [Alice; Bob; user].
Proof.
  destruct (authenticate_new_member (snd bob_added) "FAM123" "Dana")
    as (user & w' & Hrun & Hname & Hrole & Hperm & _ & _ & _ & Hstored & _).
  - reflexivity.
  - apply (proj1 (Forall_forall
                    (λ m, toLowerCase (name m) ≠ toLowerCase "Dana") _)).
    compute_done.
  - exists user, w'. split; [exact Hrun|].
    rewrite Hname, Hrole, Hperm, Hstored. repeat split; by vm_compute.
Defined.

Lemma authenticate_again_witness :
  ∃ user w1 again w2,
    authenticateFamilyMember "FAM123" "Dana" (snd bob_added)
      = (Return (Some user), w1)
    ∧ authenticateFamilyMember "FAM123" "DANA" w1 = (Return (Some again), w2)
    ∧ id again = id user
    ∧ length (stored_members (storage w2)) = length (stored_members (storage w1)).
Proof.
  apply (authenticate_again (snd bob_added) "FAM123" "Dana" "DANA");
    reflexivity.
Defined.

Lemma createFamily_outcome_witness :
  createFamily "FAM456" "Mallory" (snd bob_added)
  = (Throw "Failed to create family", snd bob_added).
Proof.
  apply (proj1 (createFamily_outcome (snd bob_added) "FAM456" "Mallory")).
  reflexivity.
Defined.

(** ** Member names *)

Lemma fmap_insert_same {A B} (f : A → B) (l : list A) i x y :
  l !! i = Some x → f y = f x → f <$> <[i := y]> l = f <$> l.
Proof.
  intros Hi Hf. rewrite list_fmap_insert, Hf.
  apply list_insert_id. by rewrite list_lookup_fmap, Hi.
Qed.

Lemma NoDup_fmap_snoc {A B} (f : A → B) (l : list A) x :
  NoDup (f <$> l) → (∀ y, y ∈ l → f y ≠ f x) → NoDup (f <$> (l ++ [x])).
Proof.
  intros Hl Hx. rewrite fmap_app. apply NoDup_app. split; [done|]. split.
  - intros b (y & -> & Hy)%list_elem_of_fmap Hb.
    apply list_elem_of_singleton in Hb. by apply (Hx y).
  - apply NoDup_singleton.
Qed.

Lemma NoDup_fmap_filter {A B} (f : A → B) (P : A → Prop)
    `{∀ x, Decision (P x)} (l : list A) :
  NoDup (f <$> l) → NoDup (f <$> filter P l).
Proof.
  intros Hl.
  assert (Hsub : f <$> filter P l `sublist_of` f <$> l)
    by apply fmap_sublist, sublist_filter.
  eauto using sublist_NoDup.
Qed.

Section Names.
Context `{JSString}.

Lemma perform_names_unique (op : MemberOperation) w :
  keeps_names op →
  names_unique (storage w) →
  names_unique (final (perform op w)).
Proof.
  unfold names_unique. intros Hkeeps Hunique.
  destruct op as [code memberName|code memberName|actor memberName r e p
                 |actor memberId updates|actor memberId newRole];
    unfold perform.
  - unfold authenticateFamilyMember. unfold_async. cbn [fst snd storage].
    case_decide; [done|].
    fold (stored_members (storage w)).
    destruct (list_find _ (stored_members (storage w))) as [[i existing]|]
      eqn:Hfind; cbn.
    + apply list_find_Some in Hfind as (Hi & _ & _).
      by erewrite fmap_insert_same.
    + apply NoDup_fmap_snoc; [done|].
      apply list_find_None in Hfind. by apply Forall_forall.
  - unfold createFamily. unfold_async. cbn [fst snd storage].
    destruct (truthy (FAMILY_CODE (storage w))); [done|].
    cbn. apply NoDup_singleton.
  - rewrite final_bind_Some. unfold addFamilyMember. unfold_async.
    destruct (negb (hasPermission (role actor) KcanAddMembers)); [done|].
    rewrite getFamilyMembers_run.
    destruct (list_find _ (stored_members (storage w))) as [[i existing]|]
      eqn:Hfind; [done|].
    cbn [fst snd]. rewrite logAdminAction_run. cbn.
    apply NoDup_fmap_snoc; [done|].
    apply list_find_None in Hfind. by apply Forall_forall.
  - rewrite final_bind_Some. unfold editFamilyMember. unfold_async.
    destruct (negb (hasPermission (role actor) KcanEditMembers)); [done|].
    rewrite getFamilyMembers_run.
    destruct (list_find _ (stored_members (storage w))) as [[i member]|]
      eqn:Hfind; [|done].
    destruct (truthy (updates_role updates) && _ && _); [done|].
    cbn [fst snd]. rewrite logAdminAction_run. cbn.
    apply list_find_Some in Hfind as (Hi & _ & _).
    erewrite fmap_insert_same; [done|done|].
    cbn in Hkeeps. cbn. by rewrite Hkeeps.
  - rewrite final_bind_Some. unfold changeMemberRole. unfold_async.
    destruct (negb (hasPermission (role actor) KcanEditMembers)); [done|].
    rewrite getFamilyMembers_run.
    destruct (list_find _ (stored_members (storage w))) as [[i member]|]
      eqn:Hfind; [|done].
    case_bool_decide; [done|].
    cbn [fst snd]. rewrite logAdminAction_run. cbn.
    apply list_find_Some in Hfind as (Hi & _ & _).
    by erewrite fmap_insert_same.
Qed.

Lemma removeFamilyMember_names_unique actor memberId w :
  names_unique (storage w) →
  names_unique (storage (snd (removeFamilyMember actor memberId w))).
Proof.
  unfold names_unique. intros Hunique.
  unfold removeFamilyMember. unfold_async.
  destruct (negb (hasPermission (role actor) KcanRemoveMembers)); [done|].
  rewrite getFamilyMembers_run.
  destruct (list_find _ (stored_members (storage w))) as [[i member]|]; [|done].
  case_bool_decide; [done|]. case_bool_decide; [done|].
  cbn [fst snd]. rewrite logAdminAction_run. cbn.
  by apply NoDup_fmap_filter.
Qed.

(** X13: the names of the stored members stay different up to case.  If no
    two stored members have the same lower-cased name, this is still so
    after authenticate, createFamily, addMember, changeRole, removeMember,
    and after an editMember that carries no new name. *)
Theorem names_stay_unique w :
  names_unique (storage w) →
  (∀ op, keeps_names op → names_unique (final (perform op w)))
  ∧ (∀ actor memberId,
       names_unique (storage (snd (removeFamilyMember actor memberId w)))).
Proof.
  intros Hunique. split.
  - intros op Hkeeps. by apply perform_names_unique.
  - intros actor memberId. by apply removeFamilyMember_names_unique.
Qed.

End Names.

Lemma names_stay_unique_witness :
  names_unique (storage (snd bob_added))
  ∧ names_unique
      (final (perform (Authenticate "FAM123" "Dana") (snd bob_added))).
Proof.
  assert (Hunique : names_unique (storage (snd bob_added))).
  { unfold names_unique. compute_done. }
  split; [exact Hunique|].
  exact (proj1 (names_stay_unique (snd bob_added) Hunique)
           (Authenticate "FAM123" "Dana") I).
Defined.

(** An edit that renames is not checked against the other names. *)
Remark editFamilyMember_rename_unchecked :
  let renamed :=
    editFamilyMember Alice (id Bob)
      {| u_id := None; u_name := Some "ALICE"; u_avatar := None;
         u_isOnline := None; u_lastSeen := None; u_deviceId := None;
         u_role := None; u_email := None; u_phone := None;
         u_joinedAt := None; u_isActive := None; u_permissions := None |}
      (snd bob_added) in
  names_unique (storage (snd bob_added))
  ∧ name <$> stored_members (storage (snd renamed)) = ["Alice"; "ALICE"]
  ∧ ¬ names_unique (storage (snd renamed)).
Proof.
  split; [|split].
  - unfold names_unique. compute_done.
  - by vm_compute.
  - unfold names_unique. compute_done.
Qed.

(** ** Removing, changing roles, editing *)

Lemma filter_filter_implied {A} (P Q : A → Prop) `{∀ x, Decision (P x)}
    `{∀ x, Decision (Q x)} (l : list A) :
  (∀ x, x ∈ l → P x → Q x) → filter P (filter Q l) = filter P l.
Proof.
  induction l as [|x l IH]; [done|]. intros Himp.
  rewrite (filter_cons Q). destruct (decide (Q x)) as [HQ|HQ].
  - rewrite !filter_cons. destruct (decide (P x)).
    + f_equal. apply IH. intros y Hy. apply Himp. by right.
    + apply IH. intros y Hy. apply Himp. by right.
  - rewrite filter_cons. destruct (decide (P x)) as [HP|HP].
    + destruct HQ. apply Himp; [by left|done].
    + apply IH. intros y Hy. apply Himp. by right.
Qed.

Lemma filter_insert_out {A} (P : A → Prop) `{∀ x, Decision (P x)}
    (l : list A) i x y :
  l !! i = Some x → ¬ P x → ¬ P y → filter P (<[i := y]> l) = filter P l.
Proof.
  revert i. induction l as [|z l IH]; intros [|i] Hi Hx Hy; try done.
  - cbn in Hi. injection Hi as ->.
    change (<[0 := y]> (x :: l)) with (y :: l).
    by rewrite !filter_cons, !decide_False.
  - cbn in Hi. change (<[S i := y]> (z :: l)) with (z :: <[i := y]> l).
    rewrite !filter_cons.
    destruct (decide (P z)); [f_equal|]; by apply IH.
Qed.

Lemma filter_insert_in {A} (P : A → Prop) `{∀ x, Decision (P x)}
    (l : list A) i x y z :
  l !! i = Some x → ¬ P x → z ∈ filter P l → z ∈ filter P (<[i := y]> l).
Proof.
  intros Hi Hx [Hz Hin]%list_elem_of_filter.
  apply list_elem_of_filter. split; [done|].
  apply list_elem_of_lookup in Hin as [j Hj].
  apply list_elem_of_lookup. exists j.
  rewrite list_lookup_insert_ne; [done|]. intros ->.
  rewrite Hi in Hj. by injection Hj as ->.
Qed.

(** X14: an administrator removing another member that is not an
    administrator succeeds: the stored members are the former ones without
    the members of that identifier, in the same order, and one
    [remove_member] action naming the actor and the target is logged. *)
Theorem removeFamilyMember_success w actor memberId member :
  role actor = Some "admin" →
  member ∈ stored_members (storage w) →
  id member = memberId →
  (∀ m, m ∈ stored_members (storage w) →
        id m = memberId → role m ≠ Some "admin") →
  memberId ≠ id actor →
  ∃ action w',
    removeFamilyMember actor memberId w = (Return (), w')
    ∧ FAMILY_MEMBERS (storage w')
      = Some (filter (λ m, id m ≠ memberId) (stored_members (storage w)))
    ∧ (∀ m, m ∈ stored_members (storage w') ↔
            m ∈ stored_members (storage w) ∧ id m ≠ memberId)
    ∧ (member ∉ stored_members (storage w'))
    ∧ ADMIN_ACTIONS (storage w')
      = Some (most_recent 100 (stored_actions (storage w) ++ [action]))
    ∧ operation action = remove_member
    ∧ adminId action = id actor
    ∧ targetMemberId action = Some memberId.
Proof.
  intros Hrole Hin Hid Hnoadmin Hother.
  destruct (list_find_elem_of (λ m, id m = memberId)
              (stored_members (storage w)) member Hin Hid) as [[i found] Hfind].
  pose proof (list_find_id_elem _ _ _ _ Hfind) as [Hfound Hfid].
  assert (Hmay : hasPermission (role actor) KcanRemoveMembers = true)
    by (by rewrite Hrole).
  do 2 eexists.
  unfold removeFamilyMember. unfold_async. rewrite Hmay. cbn [negb].
  rewrite getFamilyMembers_run, Hfind.
  rewrite bool_decide_false by (by apply Hnoadmin).
  rewrite bool_decide_false by done.
  cbn [fst snd]. rewrite logAdminAction_run.
  split; [reflexivity|]. cbn. unfold stored_members at 1 3. cbn.
  split; [done|]. split.
  { intros m. rewrite list_elem_of_filter. tauto. }
  split; [|done].
  rewrite list_elem_of_filter. tauto.
Qed.

(** X15: [removeFamilyMember] never removes an administrator: when the
    stored identifiers are pairwise different, the stored administrators
    are the same after the call as before, whatever its arguments and
    outcome. *)
Theorem removeFamilyMember_keeps_administrators w actor memberId :
  NoDup (id <$> stored_members (storage w)) →
  administrators (storage (snd (removeFamilyMember actor memberId w)))
  = administrators (storage w).
Proof.
  intros Hids. unfold administrators.
  unfold removeFamilyMember. unfold_async.
  destruct (negb (hasPermission (role actor) KcanRemoveMembers)); [done|].
  rewrite getFamilyMembers_run.
  destruct (list_find _ (stored_members (storage w))) as [[i member]|]
    eqn:Hfind; [|done].
  case_bool_decide as Hadmin; [done|]. case_bool_decide; [done|].
  cbn [fst snd]. rewrite logAdminAction_run. cbn.
  unfold stored_members at 1. cbn.
  apply filter_filter_implied. intros m Hm Hmadmin Hmid.
  apply list_find_Some in Hfind as (Hi & Hmemberid & _).
  apply list_elem_of_lookup in Hm as [j Hj].
  assert (i = j) as ->.
  { eapply NoDup_lookup; [exact Hids| |].
    - by rewrite list_lookup_fmap, Hi.
    - rewrite list_lookup_fmap, Hj. cbn. congruence. }
  congruence.
Qed.

(** X16: [changeMemberRole] never takes the administrator role away: every
    stored administrator is still one after the call, whatever its
    arguments and outcome, and when the new role is not ['admin'] the stored
    administrators are exactly the same. *)
Theorem changeMemberRole_keeps_administrators w actor memberId newRole :
  (∀ m, m ∈ administrators (storage w) →
        m ∈ administrators (storage (snd (changeMemberRole actor memberId newRole w))))
  ∧ (newRole ≠ Some "admin" →
     administrators (storage (snd (changeMemberRole actor memberId newRole w)))
     = administrators (storage w)).
Proof.
  unfold administrators.
  unfold changeMemberRole. unfold_async.
  destruct (negb (hasPermission (role actor) KcanEditMembers)); [done|].
  rewrite getFamilyMembers_run.
  destruct (list_find _ (stored_members (storage w))) as [[i member]|]
    eqn:Hfind; [|done].
  case_bool_decide as Hadmin; [done|].
  cbn [fst snd]. rewrite logAdminAction_run. cbn.
  unfold stored_members at 2 4. cbn.
  apply list_find_Some in Hfind as (Hi & _ & _). split.
  - intros m Hm. by eapply filter_insert_in.
  - intros Hnew. by eapply filter_insert_out.
Qed.

Lemma changeMemberRole_keeps_administrators_witness :
  administrators
    (storage (snd (changeMemberRole Alice (id Bob) (Some "parent") (snd bob_added))))
  = administrators (storage (snd bob_added)).
Proof.
  apply (proj2 (changeMemberRole_keeps_administrators (snd bob_added) Alice
                  (id Bob) (Some "parent"))).
  discriminate.
Defined.

(** X17: an actor who may edit cannot change the role of another member
    who is an administrator: an edit that carries a role is rejected with
    the admin-role error, and nothing is changed. *)
Theorem editFamilyMember_admin_guard w actor memberId updates (r : string) i
    member :
  role actor = Some "admin" ∨ role actor = Some "parent" →
  list_find (λ m, id m = memberId) (stored_members (storage w))
    = Some (i, member) →
  role member = Some "admin" →
  memberId ≠ id actor →
  u_role updates = Some (Some r) → r ≠ "" →
  editFamilyMember actor memberId updates w
  = (Throw "Cannot change admin role", w).
Proof.
  intros Hmay%canEditMembers_roles Hfind Hadmin Hother Hr Hne.
  assert (Htruthy : truthy (updates_role updates) = true).
  { unfold updates_role. rewrite Hr. cbn. by rewrite bool_decide_false. }
  unfold editFamilyMember. unfold_async. rewrite Hmay. cbn [negb].
  rewrite getFamilyMembers_run, Hfind, Htruthy.
  by rewrite !bool_decide_true by done.
Qed.

(** X18: the administrator guard of [editFamilyMember] does not apply to
    the actor's own record: an actor who may edit and is stored can give
    itself any role, also an administrator a lower one; the stored record
    gets that role and the permission set of that role. *)
Theorem editFamilyMember_own_role w actor updates (r : string) i member :
  role actor = Some "admin" ∨ role actor = Some "parent" →
  list_find (λ m, id m = id actor) (stored_members (storage w))
    = Some (i, member) →
  u_role updates = Some (Some r) → r ≠ "" →
  ∃ updated w',
    editFamilyMember actor (id actor) updates w = (Return updated, w')
    ∧ role updated = Some r
    ∧ permissions updated = getRolePermissions (Some r)
    ∧ FAMILY_MEMBERS (storage w')
      = Some (<[i := updated]> (stored_members (storage w))).
Proof.
  intros Hmay%canEditMembers_roles Hfind Hr Hne.
  assert (Hvalue : updates_role updates = Some r)
    by (unfold updates_role; by rewrite Hr).
  assert (Htruthy : truthy (Some r) = true)
    by (cbn; by rewrite bool_decide_false).
  do 2 eexists.
  unfold editFamilyMember. unfold_async. rewrite Hmay. cbn [negb].
  rewrite getFamilyMembers_run, Hfind, Hvalue, Htruthy.
  rewrite (bool_decide_false (id actor ≠ id actor)) by (by intros []).
  rewrite andb_false_r. cbn [negb fst snd]. rewrite logAdminAction_run.
  split; [reflexivity|]. cbn. by rewrite Hr.
Qed.

(** X19: a successful [editFamilyMember] replaces one stored record and
    nothing else: the number of members and every other record stay as they
    were; the permission set of the new record is the one of the role in
    the update, or the old one when the update carries no role, never the
    one an update may carry. *)
Theorem editFamilyMember_one_record w actor memberId updates updated w' :
  editFamilyMember actor memberId updates w = (Return updated, w') →
  ∃ i member,
    stored_members (storage w) !! i = Some member
    ∧ id member = memberId
    ∧ stored_members (storage w') !! i = Some updated
    ∧ length (stored_members (storage w')) = length (stored_members (storage w))
    ∧ (∀ j, j ≠ i →
            stored_members (storage w') !! j = stored_members (storage w) !! j)
    ∧ role updated = default (role member) (u_role updates)
    ∧ (permissions updated = getRolePermissions (role updated)
       ∨ permissions updated = permissions member).
Proof.
  intros (i & member & Hfind & -> & Hstored & _)%editFamilyMember_success.
  apply list_find_Some in Hfind as (Hi & Hid & _).
  assert (Hmembers : stored_members (storage w')
                     = <[i := with_permissions
                                (if truthy (updates_role updates)
                                 then getRolePermissions
                                        (updates_role updates)
                                 else permissions member)
                                (spread member updates)]>
                         (stored_members (storage w))).
  { unfold stored_members at 1. by rewrite Hstored. }
  exists i, member.
  split; [done|]. split; [done|]. split.
  { rewrite Hmembers. apply list_lookup_insert_eq. by eapply lookup_lt_Some. }
  split; [rewrite Hmembers; apply length_insert|]. split.
  { intros j Hj. rewrite Hmembers. by apply list_lookup_insert_ne. }
  split; [done|]. unfold updates_role. cbn.
  destruct (u_role updates) as [[r|]|]; cbn; [|by right|by right].
  case_bool_decide; cbn; [by right|by left].
Qed.

Lemma removeFamilyMember_success_witness :
  ∃ action w',
    removeFamilyMember Alice (id Bob) (snd bob_added) = (Return (), w')
    ∧ FAMILY_MEMBERS (storage w') = Some [Alice]
    ∧ operation action = remove_member
    ∧ targetMemberId action = Some (id Bob).
Proof.
  destruct (removeFamilyMember_success (snd bob_added) Alice (id Bob) Bob)
    as (action & w' & Hrun & Hstored & _ & _ & _ & Hop & _ & Htarget).
  - reflexivity.
  - compute_done.
  - reflexivity.
  - apply (proj1 (Forall_forall
                    (λ m, id m = id Bob → role m ≠ Some "admin") _)).
    compute_done.
  - by vm_compute.
  - exists action, w'. split; [exact Hrun|].
    rewrite Hstored, Hop, Htarget. repeat split; by vm_compute.
Defined.

Lemma removeFamilyMember_keeps_administrators_witness :
  administrators
    (storage (snd (removeFamilyMember Alice (id Bob) (snd bob_added))))
  = administrators (storage (snd bob_added)).
Proof.
  apply (removeFamilyMember_keeps_administrators (snd bob_added) Alice (id Bob)).
  compute_done.
Defined.

Lemma editFamilyMember_admin_guard_witness :
  editFamilyMember Carol (id Alice) (role_update (Some "child"))
    (snd carol_added)
  = (Throw "Cannot change admin role", snd carol_added).
Proof.
  apply (editFamilyMember_admin_guard (snd carol_added) Carol (id Alice)
           (role_update (Some "child")) "child" 0 Alice).
  - right. reflexivity.
  - by vm_compute.
  - reflexivity.
  - by vm_compute.
  - reflexivity.
  - discriminate.
Defined.

Lemma editFamilyMember_own_role_witness :
  ∃ updated w',
    editFamilyMember Alice (id Alice) (role_update (Some "other")) (snd bob_added)
      = (Return updated, w')
    ∧ role updated = Some "other"
    ∧ permissions updated = no_capabilities
    ∧ administrators (storage w') = [].
Proof.
  destruct (editFamilyMember_own_role (snd bob_added) Alice
              (role_update (Some "other")) "other" 0 Alice)
    as (updated & w' & Hrun & Hrole & Hperm & Hstored).
  - left. reflexivity.
  - by vm_compute.
  - reflexivity.
  - discriminate.
  - exists updated, w'. split; [exact Hrun|]. split; [exact Hrole|].
    split; [by rewrite Hperm|].
    unfold administrators. unfold stored_members at 1. rewrite Hstored.
    replace (stored_members (storage (snd bob_added))) with [Alice; Bob]
      by (by vm_compute).
    change (default [] (Some (<[0 := updated]> [Alice; Bob])))
      with [updated; Bob].
    rewrite filter_cons, decide_False by (rewrite Hrole; discriminate).
    by vm_compute.
Defined.

Lemma editFamilyMember_one_record_witness :
  ∃ i member,
    stored_members (storage (snd bob_added)) !! i = Some member
    ∧ id member = id Bob
    ∧ length (stored_members
                (storage (snd (editFamilyMember Alice (id Bob)
                                 (role_update (Some "parent")) (snd bob_added)))))
      = 2.
Proof.
  destruct (editFamilyMember_one_record (snd bob_added) Alice (id Bob)
              (role_update (Some "parent"))
              (with_permissions (getRolePermissions (Some "parent"))
                 (with_role (Some "parent") Bob))
              (snd (editFamilyMember Alice (id Bob) (role_update (Some "parent"))
                      (snd bob_added))))
    as (i & member & Hi & Hid & _ & Hlen & _).
  - rewrite (surjective_pairing (editFamilyMember _ _ _ _)) at 1.
    f_equal; by vm_compute.
  - exists i, member. split; [exact Hi|]. split; [exact Hid|].
    rewrite Hlen. reflexivity.
Defined.

(** ** The session *)

Lemma getCurrentUser_run w :
  getCurrentUser w
  = match CURRENT_USER (storage w) with
    | Some user =>
        (Return (Some (seen (clock w (reads w)) (isOnline user) user)), tick w)
    | None => (Return None, w)
    end.
Proof.
  unfold getCurrentUser. unfold_async. by destruct (CURRENT_USER (storage w)).
Qed.

Lemma mark_online_run userId online members w :
  ∃ members' w',
    mark_online userId online members w = (Return members', w')
    ∧ storage w' = storage w
    ∧ clock w' = clock w ∧ random w' = random w
    ∧ Forall2 (status_updated userId online) members members'.
Proof.
  revert w. induction members as [|member rest IH]; intros w.
  { exists [], w. repeat split. constructor. }
  cbn [mark_online]. unfold mbind, Async_bind at 1.
  destruct (decide (id member = userId)) as [Hid|Hid].
  - unfold_async. cbn [fst snd].
    destruct (IH (tick w)) as (rest' & w' & Hrun & Hstorage & Hclock & Hrandom
                               & Hrest).
    rewrite Hrun. do 2 eexists. split; [reflexivity|].
    split; [done|]. split; [done|]. split; [done|].
    constructor; [|done]. unfold status_updated. rewrite decide_True by done.
    by eexists.
  - unfold_async. cbn [fst snd].
    destruct (IH w) as (rest' & w' & Hrun & Hstorage & Hclock & Hrandom & Hrest).
    rewrite Hrun. do 2 eexists. split; [reflexivity|].
    split; [done|]. split; [done|]. split; [done|].
    constructor; [|done]. unfold status_updated. by rewrite decide_False.
Qed.

Lemma updateUserOnlineStatus_run userId online w :
  ∃ members' w',
    updateUserOnlineStatus userId online w = (Return (), w')
    ∧ Forall2 (status_updated userId online) (stored_members (storage w)) members'
    ∧ FAMILY_MEMBERS (storage w') = Some members'
    ∧ FAMILY_CODE (storage w') = FAMILY_CODE (storage w)
    ∧ ADMIN_ACTIONS (storage w') = ADMIN_ACTIONS (storage w)
    ∧ FAMILY_SETTINGS (storage w') = FAMILY_SETTINGS (storage w)
    ∧ MESSAGES (storage w') = MESSAGES (storage w)
    ∧ match CURRENT_USER (storage w) with
      | Some user =>
          if decide (id user = userId)
          then ∃ now, CURRENT_USER (storage w')
                      = Some (seen now online user)
          else CURRENT_USER (storage w') = Some user
      | None => CURRENT_USER (storage w') = None
      end.
Proof.
  unfold updateUserOnlineStatus.
  unfold try_catch, mbind, Async_bind. rewrite getFamilyMembers_run.
  destruct (mark_online_run userId online (stored_members (storage w)) w)
    as (members' & w1 & Hrun & Hstorage & _ & _ & Hmarked).
  rewrite Hrun. unfold_async. cbn [fst snd]. rewrite getCurrentUser_run.
  destruct w1 as [s1 clock1 random1 reads1]. cbn in Hstorage. subst s1.
  cbn [storage with_storage set_FAMILY_MEMBERS CURRENT_USER].
  destruct (CURRENT_USER (storage w)) as [user|] eqn:Huser.
  - cbn [seen id]. destruct (decide (id user = userId)) as [Hid|Hid].
    + do 2 eexists. split; [reflexivity|]. split; [done|]. cbn.
      repeat split. by eexists.
    + do 2 eexists. split; [reflexivity|]. split; [done|]. by cbn.
  - do 2 eexists. split; [reflexivity|]. split; [done|]. by cbn.
Qed.

(** X20: [updateUserOnlineStatus] never fails and only touches the online
    flag and the last-seen time of the members with the given identifier:
    the stored members keep their number and order, every member with
    another identifier is unchanged, the others keep every field but these
    two and get the given flag; the admin log, the family code and the
    messages are unchanged. *)
Theorem updateUserOnlineStatus_only_status userId online w :
  ∃ w',
    updateUserOnlineStatus userId online w = (Return (), w')
    ∧ Forall2 (status_updated userId online)
        (stored_members (storage w)) (stored_members (storage w'))
    ∧ Forall2 (λ before after,
                 id after = id before ∧ name after = name before
                 ∧ role after = role before
                 ∧ permissions after = permissions before
                 ∧ (id before = userId → isOnline after = online))
        (stored_members (storage w)) (stored_members (storage w'))
    ∧ FAMILY_CODE (storage w') = FAMILY_CODE (storage w)
    ∧ ADMIN_ACTIONS (storage w') = ADMIN_ACTIONS (storage w)
    ∧ MESSAGES (storage w') = MESSAGES (storage w).
Proof.
  destruct (updateUserOnlineStatus_run userId online w)
    as (members' & w' & Hrun & Hmarked & Hstored & Hcode & Hlog & _ & Hmsg & _).
  exists w'. split; [done|].
  unfold stored_members at 2 4. rewrite Hstored. cbn.
  split; [done|]. split; [|done].
  eapply Forall2_impl; [exact Hmarked|].
  intros before after. unfold status_updated.
  destruct (decide (id before = userId)); [intros [now ->]|intros ->]; done.
Qed.

Lemma logout_run w :
  ∃ w',
    logout w = (Return (), w')
    ∧ CURRENT_USER (storage w') = None
    ∧ FAMILY_CODE (storage w') = FAMILY_CODE (storage w)
    ∧ ADMIN_ACTIONS (storage w') = ADMIN_ACTIONS (storage w)
    ∧ MESSAGES (storage w') = MESSAGES (storage w)
    ∧ match CURRENT_USER (storage w) with
      | Some user =>
          Forall2 (status_updated (id user) false)
            (stored_members (storage w)) (stored_members (storage w'))
      | None => FAMILY_MEMBERS (storage w') = FAMILY_MEMBERS (storage w)
      end.
Proof.
  unfold logout. unfold try_catch at 1. unfold mbind, Async_bind.
  rewrite getCurrentUser_run.
  destruct (CURRENT_USER (storage w)) as [user|] eqn:Huser.
  - cbn [seen id].
    destruct (updateUserOnlineStatus_run (id user) false (tick w))
      as (members' & w1 & Hrun & Hmarked & Hstored & Hcode & Hlog & _ & Hmsg & _).
    rewrite Hrun. unfold clearCurrentUser, removeItem. unfold_async.
    eexists. split; [reflexivity|]. cbn.
    rewrite Hcode, Hlog, Hmsg. repeat split.
    unfold stored_members in *. cbn in *. by rewrite Hstored.
  - unfold clearCurrentUser, removeItem. unfold_async.
    eexists. split; [reflexivity|]. by cbn.
Qed.

(** X21: [logout] never fails; afterwards nobody is logged in
    ([isAuthenticated] answers false and [getCurrentUser] gives nobody), and
    the stored members with the identifier of the user that was logged in
    are marked offline, the other members being unchanged. *)
Theorem logout_ends_session w :
  ∃ w',
    logout w = (Return (), w')
    ∧ isAuthenticated w' = (Return false, w')
    ∧ getCurrentUser w' = (Return None, w')
    ∧ (∀ user, CURRENT_USER (storage w) = Some user →
               Forall2 (status_updated (id user) false)
                 (stored_members (storage w)) (stored_members (storage w')))
    ∧ (CURRENT_USER (storage w) = None →
       FAMILY_MEMBERS (storage w') = FAMILY_MEMBERS (storage w)).
Proof.
  destruct (logout_run w) as (w' & Hrun & Hnone & _ & _ & _ & Hmembers).
  exists w'. split; [done|].
  assert (Hget : getCurrentUser w' = (Return None, w'))
    by (by rewrite getCurrentUser_run, Hnone).
  split.
  { unfold isAuthenticated. unfold try_catch, mbind, Async_bind.
    rewrite Hget. unfold_async. by rewrite bool_decide_false by (by intros []). }
  split; [done|]. split.
  - intros user Huser. by rewrite Huser in Hmembers.
  - intros Huser. by rewrite Huser in Hmembers.
Qed.

Section Session.
Context `{JSString}.

(** X22: a successful login or family creation opens the session of the
    member it returns: that member is the stored current user,
    [isAuthenticated] answers true, and [getCurrentUser] returns it with a
    fresh last-seen time, without writing that time back to the storage. *)
Theorem login_opens_session w familyCode memberName user w1 :
  authenticateFamilyMember familyCode memberName w = (Return (Some user), w1)
  ∨ createFamily familyCode memberName w = (Return (Some user), w1) →
  CURRENT_USER (storage w1) = Some user
  ∧ isAuthenticated w1 = (Return true, tick w1)
  ∧ getCurrentUser w1
    = (Return (Some (seen (clock w1 (reads w1)) (isOnline user) user)), tick w1)
  ∧ storage (tick w1) = storage w1.
Proof.
  intros Hrun.
  assert (Huser : CURRENT_USER (storage w1) = Some user).
  { destruct Hrun as [Hrun|Hrun].
    - revert Hrun. unfold authenticateFamilyMember. unfold_async.
      cbn [fst snd]. case_decide; [by intros [=]|].
      destruct (list_find _ _) as [[i existing]|]; by intros [= <- <-].
    - revert Hrun. unfold createFamily. unfold_async.
      destruct (truthy (FAMILY_CODE (storage w))); [by intros [=]|].
      by intros [= <- <-]. }
  assert (Hget : getCurrentUser w1
                 = (Return (Some (seen (clock w1 (reads w1)) (isOnline user) user)),
                    tick w1))
    by (by rewrite getCurrentUser_run, Huser).
  split; [done|]. split; [|done].
  unfold isAuthenticated. unfold try_catch, mbind, Async_bind.
  rewrite Hget. unfold_async. by rewrite bool_decide_true.
Qed.

End Session.

Lemma login_opens_session_witness :
  CURRENT_USER (storage (snd family_created)) = Some Alice
  ∧ isAuthenticated (snd family_created) = (Return true, tick (snd family_created)).
Proof.
  destruct (login_opens_session fresh_install "FAM123" "Alice" Alice
              (snd family_created)) as (Huser & Hauth & _).
  - right. unfold family_created.
    rewrite (surjective_pairing (createFamily _ _ _)) at 1.
    f_equal; by vm_compute.
  - split; [exact Huser|exact Hauth].
Defined.

(** ** Stored messages and the chat screen *)

(** X23: the message store round-trips: [getMessages] after [saveMessages]
    returns the saved list, and after [addMessage] it returns the former
    list followed by the added message; neither fails, and [addMessage]
    leaves the members, the current user and the admin log alone. *)
Theorem messages_round_trip w :
  (∀ messages,
     ∃ w', saveMessages messages w = (Return (), w')
           ∧ getMessages w' = (Return messages, w'))
  ∧ (∀ message,
       ∃ w', addMessage message w = (Return (), w')
             ∧ getMessages w'
               = (Return (stored_messages (storage w) ++ [message]), w')
             ∧ FAMILY_MEMBERS (storage w') = FAMILY_MEMBERS (storage w)
             ∧ CURRENT_USER (storage w') = CURRENT_USER (storage w)
             ∧ ADMIN_ACTIONS (storage w') = ADMIN_ACTIONS (storage w)).
Proof.
  split.
  - intros messages. eexists. split; [reflexivity|].
    by rewrite getMessages_run.
  - intros message. unfold addMessage. unfold try_catch, mbind, Async_bind.
    rewrite getMessages_run. unfold_async. eexists. split; [reflexivity|].
    rewrite getMessages_run. by cbn.
Qed.

Section SendAndLoad.
Context `{JSString}.

(** X24: a message sent from the chat with a member is there when the chat
    is loaded again: if the user logged in is the sender, loading after
    sending shows the conversation as it was stored, followed by the new
    message. *)
Theorem sendMessage_then_loadChatData route screen sender user w :
  currentUser screen = Some sender →
  CURRENT_USER (storage w) = Some user →
  id user = id sender →
  trim (newMessage screen) ≠ "" →
  truthy (route_chatId route) = false →
  memberId route ≠ "" →
  ∃ message sent w1 shown w2,
    sendMessage route screen w = (Return sent, w1)
    ∧ loadChatData route sent w1 = (Return shown, w2)
    ∧ content message = trim (newMessage screen)
    ∧ senderId message = id sender
    ∧ receiverId message = memberId route
    ∧ messages shown
      = filteredMessages (memberId route) (Some user)
          (stored_messages (storage w))
        ++ [message].
Proof.
  intros Hsender Huser Hid Htyped Hchat Hmember.
  destruct (sendMessage_run route screen sender w Hsender Htyped)
    as (message & w1 & Hobject & Hsend & Hstore).
  exists message. eexists _, w1. do 2 eexists.
  split; [exact Hsend|].
  assert (Hfields : content message = trim (newMessage screen)
                    ∧ senderId message = id sender
                    ∧ receiverId message = memberId route).
  { unfold send_message_object in Hobject. unfold_async.
    by injection Hobject as <-. }
  destruct Hfields as (Hcontent & Hfrom & Hto).
  unfold loadChatData. unfold try_catch, mbind, Async_bind.
  rewrite getCurrentUser_run, Hstore. cbn [set_MESSAGES CURRENT_USER].
  rewrite Huser, Hchat. cbn [truthy].
  rewrite bool_decide_false by done. cbn [negb].
  rewrite getMessages_run. unfold_async.
  split; [reflexivity|]. split; [done|]. split; [done|]. split; [done|].
  assert (Hmsgs : stored_messages (storage w1)
                  = stored_messages (storage w) ++ [message]).
  { unfold stored_messages at 1. by rewrite Hstore. }
  cbn [messages storage tick]. rewrite Hmsgs.
  rewrite !filteredMessages_filter. cbn [seen id].
  rewrite filter_app. f_equal.
  rewrite filter_cons, decide_True; [done|].
  apply participants_pair. right. split; congruence.
Qed.

(** X25: a message sent from a chat opened by its chat identifier carries
    that identifier, and loading the chat again shows the stored messages
    of the identifier followed by the new message, whoever their senders
    and receivers are. *)
Theorem sendMessage_then_loadChatData_by_chatId route screen sender w :
  currentUser screen = Some sender →
  trim (newMessage screen) ≠ "" →
  truthy (route_chatId route) = true →
  ∃ message sent w1 shown w2,
    sendMessage route screen w = (Return sent, w1)
    ∧ loadChatData route sent w1 = (Return shown, w2)
    ∧ chatId message = route_chatId route
    ∧ messages shown
      = filter (λ msg, chatId msg = route_chatId route)
          (stored_messages (storage w))
        ++ [message].
Proof.
  intros Hsender Htyped Hchat.
  destruct (sendMessage_run route screen sender w Hsender Htyped)
    as (message & w1 & Hobject & Hsend & Hstore).
  assert (Hid : chatId message = route_chatId route).
  { unfold send_message_object in Hobject. unfold_async.
    injection Hobject as <-. cbn. rewrite Hchat.
    by destruct (route_chatId route). }
  assert (Hmsgs : stored_messages (storage w1)
                  = stored_messages (storage w) ++ [message]).
  { unfold stored_messages at 1. by rewrite Hstore. }
  assert (Hshown : filter (λ msg, chatId msg = route_chatId route)
                     (stored_messages (storage w1))
                   = filter (λ msg, chatId msg = route_chatId route)
                       (stored_messages (storage w)) ++ [message]).
  { rewrite Hmsgs, filter_app. f_equal. by rewrite filter_cons, decide_True. }
  destruct (CURRENT_USER (storage w1)) as [user|] eqn:Huser;
    exists message; eexists _, w1; do 2 eexists;
    (split; [exact Hsend|]);
    unfold loadChatData; unfold try_catch, mbind, Async_bind;
    rewrite getCurrentUser_run, Huser, Hchat, getMessages_run; unfold_async;
    (split; [reflexivity|]); (split; [done|]);
    cbn [messages storage tick]; exact Hshown.
Qed.

End SendAndLoad.

Lemma sendMessage_then_loadChatData_witness :
  ∃ message sent w1 shown w2,
    sendMessage chat_with_Bob (typed "Hello Bob") (snd bob_added)
      = (Return sent, w1)
    ∧ loadChatData chat_with_Bob sent w1 = (Return shown, w2)
    ∧ content message = "Hello Bob"
    ∧ messages shown = [message].
Proof.
  destruct (sendMessage_then_loadChatData chat_with_Bob (typed "Hello Bob")
              Alice Alice (snd bob_added))
    as (message & sent & w1 & shown & w2 & Hsend & Hload & Hcontent & _ & _
        & Hshown).
  - reflexivity.
  - by vm_compute.
  - reflexivity.
  - vm_compute. discriminate.
  - reflexivity.
  - vm_compute. discriminate.
  - exists message, sent, w1, shown, w2.
    split; [exact Hsend|]. split; [exact Hload|].
    rewrite Hcontent, Hshown. split; by vm_compute.
Defined.

Lemma sendMessage_then_loadChatData_by_chatId_witness :
  ∃ message sent w1 shown w2,
    sendMessage
      {| memberId := id Bob; memberName := "Bob";
         route_chatId := Some "chat_family" |}
      (typed "Dinner at seven") (snd bob_added)
      = (Return sent, w1)
    ∧ loadChatData
        {| memberId := id Bob; memberName := "Bob";
           route_chatId := Some "chat_family" |} sent w1
      = (Return shown, w2)
    ∧ chatId message = Some "chat_family"
    ∧ messages shown = [message].
Proof.
  destruct (sendMessage_then_loadChatData_by_chatId
              {| memberId := id Bob; memberName := "Bob";
                 route_chatId := Some "chat_family" |}
              (typed "Dinner at seven") Alice (snd bob_added))
    as (message & sent & w1 & shown & w2 & Hsend & Hload & Hid & Hshown).
  - reflexivity.
  - vm_compute. discriminate.
  - reflexivity.
  - exists message, sent, w1, shown, w2.
    split; [exact Hsend|]. split; [exact Hload|]. split; [exact Hid|].
    rewrite Hshown. by vm_compute.
Defined.

(** ** The admin screen *)

Lemma loadAdminData_run screen w :
  ∃ user w',
    loadAdminData screen w
    = (Return (loaded user (stored_members (storage w))
                 (stored_actions (storage w)) screen), w')
    ∧ storage w' = storage w
    ∧ id <$> user = id <$> CURRENT_USER (storage w).
Proof.
  unfold loadAdminData, getAdminActions.
  unfold try_catch at 1. unfold mbind, Async_bind.
  rewrite getCurrentUser_run.
  destruct (CURRENT_USER (storage w)) as [user|];
    rewrite getFamilyMembers_run; unfold_async; by do 2 eexists.
Qed.

Section Forms.
Context `{JSString}.

(** X26: saving the edit form when it says what the selected member
    already has (the name after trimming, the role, and the email and phone
    after trimming, an absent one counting as empty) calls no service:
    nothing is stored or logged, and the screen only shows the no-changes
    notice. *)
Theorem handleEditMember_no_change screen selected user w :
  selectedMember screen = Some selected →
  admin_currentUser screen = Some user →
  trim (editMemberName screen) = name selected →
  editMemberRole screen = role selected →
  trim (editMemberEmail screen)
  = (if truthy (email selected) then default "" (email selected) else "") →
  trim (editMemberPhone screen)
  = (if truthy (phone selected) then default "" (phone selected) else "") →
  handleEditMember screen w
  = (Return (alert "Info" "No changes made" screen), w).
Proof.
  intros Hselected Huser Hname Hrole Hemail Hphone.
  unfold handleEditMember. rewrite Hselected, Huser.
  unfold try_catch, edit_form_updates, update_keys. cbn.
  rewrite (decide_False (P := trim (editMemberName screen) ≠ name selected))
    by (by intros []).
  rewrite (decide_False (P := editMemberRole screen ≠ role selected))
    by (by intros []).
  rewrite (decide_False (P := trim (editMemberEmail screen) ≠ _))
    by (by intros []).
  rewrite (decide_False (P := trim (editMemberPhone screen) ≠ _))
    by (by intros []).
  reflexivity.
Qed.

(** X27: when the form differs from the selected member, [handleEditMember]
    calls [editFamilyMember] with the keys that differ.  If the service
    rejects the edit, nothing is changed and the message of the error is
    shown; if it accepts, the storage is as the service left it, the screen
    shows the stored members and the stored log, the dialog is closed and
    the success notice is shown. *)
Theorem handleEditMember_changes screen selected user w :
  selectedMember screen = Some selected →
  admin_currentUser screen = Some user →
  update_keys (edit_form_updates selected screen) ≠ 0 →
  (∀ message w1,
     editFamilyMember user (id selected) (edit_form_updates selected screen) w
       = (Throw message, w1) →
     handleEditMember screen w = (Return (alert "Error" message screen), w))
  ∧ (∀ updated w1,
       editFamilyMember user (id selected) (edit_form_updates selected screen) w
         = (Return updated, w1) →
       ∃ screen' w2,
         handleEditMember screen w = (Return screen', w2)
         ∧ storage w2 = storage w1
         ∧ familyMembers screen' = stored_members (storage w1)
         ∧ adminActions screen' = stored_actions (storage w1)
         ∧ editMemberModal screen' = false
         ∧ selectedMember screen' = None
         ∧ alerts screen'
           = alerts screen ++ [("Success", "Member updated successfully!")]).
Proof.
  intros Hselected Huser Hkeys.
  unfold handleEditMember. rewrite Hselected, Huser.
  unfold try_catch at 1. rewrite decide_False by done.
  unfold mbind, Async_bind. split.
  - intros message w1 Hrun. unfold try_catch. rewrite Hrun.
    apply editFamilyMember_failure in Hrun as ->. reflexivity.
  - intros updated w1 Hrun. unfold try_catch. rewrite Hrun.
    destruct (loadAdminData_run screen w1) as (reloaded & w2 & Hload & Hstore & _).
    rewrite Hload. unfold_async. do 2 eexists. split; [reflexivity|]. by cbn.
Qed.

(** X28: [handleAddMember] refuses a name that is empty after trimming
    before anything else, then a screen without a current user, both
    without calling the service.  Otherwise it calls [addFamilyMember] with
    the trimmed name, the chosen role, and the trimmed email and phone, an
    empty one being passed as absent.  If the service rejects the call,
    nothing is changed and the message of the error is shown; if it
    accepts, the storage is as the service left it, the screen shows the
    stored members and the stored log, the form is reset, the dialog is
    closed and the notice names the new member. *)
Theorem handleAddMember_outcome screen w :
  (trim (newMemberName screen) = "" →
   handleAddMember screen w
   = (Return (alert "Error" "Please enter a member name" screen), w))
  ∧ (trim (newMemberName screen) ≠ "" →
     (admin_currentUser screen = None →
      handleAddMember screen w
      = (Return (alert "Error" "User not authenticated" screen), w))
     ∧ (∀ user,
          admin_currentUser screen = Some user →
          (∀ message w1,
             addFamilyMember user (trim (newMemberName screen))
               (newMemberRole screen)
               (trimmed_or_undefined (newMemberEmail screen))
               (trimmed_or_undefined (newMemberPhone screen)) w
             = (Throw message, w1) →
             handleAddMember screen w
             = (Return (alert "Error" message screen), w))
          ∧ (∀ newMember w1,
               addFamilyMember user (trim (newMemberName screen))
                 (newMemberRole screen)
                 (trimmed_or_undefined (newMemberEmail screen))
                 (trimmed_or_undefined (newMemberPhone screen)) w
               = (Return newMember, w1) →
               ∃ screen' w2,
                 handleAddMember screen w = (Return screen', w2)
                 ∧ storage w2 = storage w1
                 ∧ familyMembers screen' = stored_members (storage w1)
                 ∧ adminActions screen' = stored_actions (storage w1)
                 ∧ addMemberModal screen' = false
                 ∧ newMemberName screen' = ""
                 ∧ newMemberRole screen' = Some "other"
                 ∧ newMemberEmail screen' = ""
                 ∧ newMemberPhone screen' = ""
                 ∧ alerts screen'
                   = alerts screen
                     ++ [("Success",
                          "Added " +:+ name newMember +:+ " to the family!")])))
  ∧ (∀ field, trimmed_or_undefined field = None ↔ trim field = "").
Proof.
  unfold handleAddMember. split; [|split].
  - intros Hblank. rewrite Hblank. reflexivity.
  - intros Hname. cbn [truthy]. rewrite bool_decide_false by done. cbn [negb].
    split.
    + by intros ->.
    + intros user ->. split.
      * intros message w1 Hrun. unfold try_catch, mbind, Async_bind.
        rewrite Hrun. apply addFamilyMember_failure in Hrun as ->.
        reflexivity.
      * intros newMember w1 Hrun. unfold try_catch, mbind, Async_bind.
        rewrite Hrun.
        destruct (loadAdminData_run screen w1)
          as (reloaded & w2 & Hload & Hstore & _).
        rewrite Hload. unfold_async. do 2 eexists.
        split; [reflexivity|]. by cbn.
  - intros field. unfold trimmed_or_undefined. cbn [truthy].
    case_bool_decide as Hfield; cbn [negb]; [by rewrite Hfield|].
    split; [done|]. by intros ?.
Qed.

End Forms.

Lemma handleEditMember_no_change_witness :
  handleEditMember (openEditModal Bob admin_panel) (snd bob_added)
  = (Return (alert "Info" "No changes made" (openEditModal Bob admin_panel)),
     snd bob_added).
Proof.
  apply (handleEditMember_no_change _ Bob Alice); reflexivity.
Defined.

Lemma handleEditMember_changes_witness :
  ∃ screen' w2,
    handleEditMember Bob_as_parent (snd bob_added) = (Return screen', w2)
    ∧ role <$> familyMembers screen' = [Some "admin"; Some "parent"]
    ∧ editMemberModal screen' = false
    ∧ alerts screen' = [("Success", "Member updated successfully!")].
Proof.
  destruct (handleEditMember_changes Bob_as_parent Bob Alice (snd bob_added))
    as [_ Haccepted]; [reflexivity|reflexivity|by vm_compute|].
  destruct (Haccepted
              (with_permissions (getRolePermissions (Some "parent"))
                 (with_role (Some "parent") Bob))
              (snd (editFamilyMember Alice (id Bob)
                      (edit_form_updates Bob Bob_as_parent) (snd bob_added))))
    as (screen' & w2 & Hrun & _ & Hmembers & _ & Hmodal & _ & Halerts).
  - rewrite (surjective_pairing (editFamilyMember _ _ _ _)) at 1.
    f_equal; by vm_compute.
  - exists screen', w2. split; [exact Hrun|]. split; [|by split].
    rewrite Hmembers. by vm_compute.
Defined.

(** ** The size of the admin log *)

Lemma most_recent_bounded (log : list AdminAction) (a : AdminAction) :
  (length (most_recent 100 (log ++ [a])) ≤ 100)%nat.
Proof. apply length_most_recent. Qed.

Section LogSize.
Context `{JSString}.

Lemma perform_log_bounded (op : MemberOperation) w :
  (length (stored_actions (storage w)) ≤ 100)%nat →
  (length (stored_actions (final (perform op w))) ≤ 100)%nat.
Proof.
  intros Hlog.
  destruct op as [code memberName|code memberName|actor memberName r e p
                 |actor memberId updates|actor memberId newRole];
    unfold perform.
  - unfold authenticateFamilyMember. unfold_async. cbn [fst snd storage].
    case_decide; [done|].
    destruct (list_find _ _) as [[i existing]|]; by cbn.
  - unfold createFamily. unfold_async. cbn [fst snd storage].
    destruct (truthy (FAMILY_CODE (storage w))); by cbn.
  - rewrite final_bind_Some. unfold addFamilyMember. unfold_async.
    destruct (negb (hasPermission (role actor) KcanAddMembers)); [done|].
    rewrite getFamilyMembers_run.
    destruct (list_find _ (stored_members (storage w))) as [[i existing]|];
      [done|].
    cbn [fst snd]. rewrite logAdminAction_run. apply most_recent_bounded.
  - rewrite final_bind_Some. unfold editFamilyMember. unfold_async.
    destruct (negb (hasPermission (role actor) KcanEditMembers)); [done|].
    rewrite getFamilyMembers_run.
    destruct (list_find _ (stored_members (storage w))) as [[i member]|];
      [|done].
    destruct (truthy (updates_role updates) && _ && _); [done|].
    cbn [fst snd]. rewrite logAdminAction_run. apply most_recent_bounded.
  - rewrite final_bind_Some. unfold changeMemberRole. unfold_async.
    destruct (negb (hasPermission (role actor) KcanEditMembers)); [done|].
    rewrite getFamilyMembers_run.
    destruct (list_find _ (stored_members (storage w))) as [[i member]|];
      [|done].
    case_bool_decide; [done|].
    cbn [fst snd]. rewrite logAdminAction_run. apply most_recent_bounded.
Qed.

Lemma removeFamilyMember_log_bounded actor memberId w :
  (length (stored_actions (storage w)) ≤ 100)%nat →
  (length (stored_actions (storage (snd (removeFamilyMember actor memberId w))))
   ≤ 100)%nat.
Proof.
  intros Hlog. unfold removeFamilyMember. unfold_async.
  destruct (negb (hasPermission (role actor) KcanRemoveMembers)); [done|].
  rewrite getFamilyMembers_run.
  destruct (list_find _ (stored_members (storage w))) as [[i member]|]; [|done].
  case_bool_decide; [done|]. case_bool_decide; [done|].
  cbn [fst snd]. rewrite logAdminAction_run. apply most_recent_bounded.
Qed.

(** X29: in every world the application gets into from a device with
    nothing stored, by any sequence of operations of the member directory,
    the stored admin log has at most 100 entries. *)
Theorem reachable_log_bounded w :
  reachable w → (length (stored_actions (storage w)) ≤ 100)%nat.
Proof.
  induction 1 as [w Hempty|op w _ IH|actor memberId w _ IH].
  - rewrite Hempty. cbn. lia.
  - by apply perform_log_bounded.
  - by apply removeFamilyMember_log_bounded.
Qed.

End LogSize.

Lemma reachable_log_bounded_witness :
  (length
     (stored_actions
        (storage
           (snd (perform (AddMember Alice "Bob" (Some "child") None None)
                   (snd (perform (CreateFamily "FAM123" "Alice")
                           fresh_install))))))
   ≤ 100)%nat.
Proof.
  apply reachable_log_bounded.
  do 2 apply reachable_perform.
  by apply reachable_start.
Defined.

(** ** Elapsed times *)

(** X30: [formatTimestamp] shows a time less than a minute ago, or in the
    future, as just now; otherwise it shows the whole minutes below an hour,
    the whole hours below a day, and the whole days from then on, so the
    number shown is never zero, below 60 for minutes and below 24 for
    hours. *)
Theorem formatTimestamp_elapsed (date : Date) w :
  let elapsed := (Z.of_N (clock w (reads w)) - Z.of_N date)%Z in
  ∃ shown,
    formatTimestamp date w = (Return shown, tick w)
    ∧ ((elapsed < 60000)%Z → shown = "Just now")
    ∧ ((60000 ≤ elapsed < 3600000)%Z →
       shown = pretty (elapsed / 60000)%Z +:+ "m ago"
       ∧ (1 ≤ elapsed / 60000 < 60)%Z)
    ∧ ((3600000 ≤ elapsed < 86400000)%Z →
       shown = pretty (elapsed / 3600000)%Z +:+ "h ago"
       ∧ (1 ≤ elapsed / 3600000 < 24)%Z)
    ∧ ((86400000 ≤ elapsed)%Z →
       shown = pretty (elapsed / 86400000)%Z +:+ "d ago"
       ∧ (1 ≤ elapsed / 86400000)%Z).
Proof.
  intros elapsed. unfold formatTimestamp. unfold_async.
  fold elapsed. eexists. split; [reflexivity|].
  change (1000 * 60)%Z with 60000%Z.
  assert (Hhours : (elapsed / 60000 / 60 = elapsed / 3600000)%Z)
    by (rewrite Z.div_div by lia; reflexivity).
  assert (Hdays : (elapsed / 60000 / 1440 = elapsed / 86400000)%Z)
    by (rewrite Z.div_div by lia; reflexivity).
  rewrite Hhours, Hdays.
  assert (Hmin : (60000 * (elapsed / 60000) ≤ elapsed
                  < 60000 * (elapsed / 60000) + 60000)%Z).
  { pose proof (Z.mul_div_le elapsed 60000 ltac:(lia)).
    pose proof (Z.mul_succ_div_gt elapsed 60000 ltac:(lia)). lia. }
  assert (Hhr : (3600000 * (elapsed / 3600000) ≤ elapsed
                 < 3600000 * (elapsed / 3600000) + 3600000)%Z).
  { pose proof (Z.mul_div_le elapsed 3600000 ltac:(lia)).
    pose proof (Z.mul_succ_div_gt elapsed 3600000 ltac:(lia)). lia. }
  assert (Hday : (86400000 * (elapsed / 86400000) ≤ elapsed
                  < 86400000 * (elapsed / 86400000) + 86400000)%Z).
  { pose proof (Z.mul_div_le elapsed 86400000 ltac:(lia)).
    pose proof (Z.mul_succ_div_gt elapsed 86400000 ltac:(lia)). lia. }
  split; [|split; [|split]]; intros Hrange;
    repeat match goal with
           | |- context [(?a <? ?b)%Z] => destruct (Z.ltb_spec a b)
           end; try done; try lia; split; (done || lia).
Qed.

Lemma formatTimestamp_elapsed_witness :
  fst (formatTimestamp 1699990000000%N fresh_install) = Return "2h ago".
Proof.
  destruct (formatTimestamp_elapsed 1699990000000%N fresh_install)
    as (shown & Hrun & _ & _ & Hhours & _).
  rewrite Hrun. cbn [fst]. f_equal.
  destruct Hhours as [-> _]; [by vm_compute|by vm_compute].
Defined.
